(** * tap2tool: registry curation and query-builder block generation

    A shallow embedding of [tap2tool.py].  The Python objects become records,
    attribute access that can fail becomes an explicit result, the network
    (pyvo's registry records and TAP services) becomes an oracle of catalog
    reads, and the SIGALRM deadline of the [timeout] decorator becomes a
    counter in the world state.

    Conventions.
    - A Python [str] is a Rocq [string] holding its UTF-8 bytes, so
      [encode("utf-8")] is the list of its characters.
    - [str.lower] is lower-casing of the ASCII letters.  No non-ASCII code
      point lower-cases to a letter of the reference table name, so the
      comparison against that ASCII constant is not affected.
    - [print] writes to the standard output, which is not modelled. *)

From Stdlib Require Import String Ascii List ZArith Bool Arith Lia.
Import ListNotations.
Open Scope string_scope.

(** ** Text helpers *)

Definition dq : string := String "034"%char EmptyString.
Definition nl : string := String "010"%char EmptyString.
Definition tab : string := String "009"%char EmptyString.

Definition lower_ascii (c : ascii) : ascii :=
  let n := nat_of_ascii c in
  if ((65 <=? n) && (n <=? 90))%nat then ascii_of_nat (n + 32) else c.

(** [str.lower()] *)
Fixpoint lower (s : string) : string :=
  match s with
  | EmptyString => EmptyString
  | String c r => String (lower_ascii c) (lower r)
  end.

(** ** hashlib.md5 (RFC 1321) on 32-bit words carried in [Z] *)

Module MD5.
Local Open Scope Z_scope.

Definition wrap (x : Z) : Z := x mod 2 ^ 32.
Definition add32 (a b : Z) : Z := wrap (a + b).
Definition not32 (x : Z) : Z := Z.lxor x 0xffffffff.
Definition rotl32 (x s : Z) : Z :=
  Z.lor (wrap (Z.shiftl x s)) (Z.shiftr x (32 - s)).

Definition shifts : list Z :=
  [7; 12; 17; 22; 7; 12; 17; 22; 7; 12; 17; 22; 7; 12; 17; 22;
   5; 9; 14; 20; 5; 9; 14; 20; 5; 9; 14; 20; 5; 9; 14; 20;
   4; 11; 16; 23; 4; 11; 16; 23; 4; 11; 16; 23; 4; 11; 16; 23;
   6; 10; 15; 21; 6; 10; 15; 21; 6; 10; 15; 21; 6; 10; 15; 21].

Definition sines : list Z :=
  [0xd76aa478; 0xe8c7b756; 0x242070db; 0xc1bdceee;
   0xf57c0faf; 0x4787c62a; 0xa8304613; 0xfd469501;
   0x698098d8; 0x8b44f7af; 0xffff5bb1; 0x895cd7be;
   0x6b901122; 0xfd987193; 0xa679438e; 0x49b40821;
   0xf61e2562; 0xc040b340; 0x265e5a51; 0xe9b6c7aa;
   0xd62f105d; 0x02441453; 0xd8a1e681; 0xe7d3fbc8;
   0x21e1cde6; 0xc33707d6; 0xf4d50d87; 0x455a14ed;
   0xa9e3e905; 0xfcefa3f8; 0x676f02d9; 0x8d2a4c8a;
   0xfffa3942; 0x8771f681; 0x6d9d6122; 0xfde5380c;
   0xa4beea44; 0x4bdecfa9; 0xf6bb4b60; 0xbebfbc70;
   0x289b7ec6; 0xeaa127fa; 0xd4ef3085; 0x04881d05;
   0xd9d4d039; 0xe6db99e5; 0x1fa27cf8; 0xc4ac5665;
   0xf4292244; 0x432aff97; 0xab9423a7; 0xfc93a039;
   0x655b59c3; 0x8f0ccc92; 0xffeff47d; 0x85845dd1;
   0x6fa87e4f; 0xfe2ce6e0; 0xa3014314; 0x4e0811a1;
   0xf7537e82; 0xbd3af235; 0x2ad7d2bb; 0xeb86d391].

Definition state : Type := Z * Z * Z * Z.

Definition init : state := (0x67452301, 0xefcdab89, 0x98badcfe, 0x10325476).

(** One of the 64 operations of a block; [m] holds the 16 words of the block. *)
Definition operation (m : list Z) (st : state) (i : nat) : state :=
  let '(a, b, c, d) := st in
  let iz := Z.of_nat i in
  let '(f, g) :=
    if (i <? 16)%nat then (Z.lor (Z.land b c) (Z.land (not32 b) d), iz)
    else if (i <? 32)%nat then
      (Z.lor (Z.land d b) (Z.land (not32 d) c), (5 * iz + 1) mod 16)
    else if (i <? 48)%nat then (Z.lxor (Z.lxor b c) d, (3 * iz + 5) mod 16)
    else (Z.lxor c (Z.lor b (not32 d)), (7 * iz) mod 16) in
  let f := add32 (add32 (add32 f a) (nth i sines 0)) (nth (Z.to_nat g) m 0) in
  (d, add32 b (rotl32 f (nth i shifts 0)), b, c).

(** Little-endian words of a run of bytes. *)
Fixpoint words (bytes : list Z) : list Z :=
  match bytes with
  | b0 :: b1 :: b2 :: b3 :: rest =>
      (b0 + 2 ^ 8 * b1 + 2 ^ 16 * b2 + 2 ^ 24 * b3) :: words rest
  | _ => []
  end.

Definition block (st : state) (bytes : list Z) : state :=
  let '(a0, b0, c0, d0) := st in
  let '(a, b, c, d) := fold_left (operation (words bytes)) (seq 0 64) st in
  (add32 a0 a, add32 b0 b, add32 c0 c, add32 d0 d).

Definition le_bytes (n : nat) (x : Z) : list Z :=
  map (fun k => Z.shiftr x (8 * Z.of_nat k) mod 256) (seq 0 n).

(** The message followed by 0x80, zeros up to 56 modulo 64, and its length
    in bits on 64 bits. *)
Definition pad (msg : list Z) : list Z :=
  let len := length msg in
  let zeros := ((64 + 55 - len mod 64) mod 64)%nat in
  msg ++ [0x80] ++ repeat 0 zeros ++ le_bytes 8 ((8 * Z.of_nat len) mod 2 ^ 64).

Definition digest (msg : list Z) : list Z :=
  let padded := pad msg in
  let blocks := map (fun k => firstn 64 (skipn (64 * k) padded))
                    (seq 0 (length padded / 64)) in
  let '(a, b, c, d) := fold_left block blocks init in
  le_bytes 4 a ++ le_bytes 4 b ++ le_bytes 4 c ++ le_bytes 4 d.

Definition hex_digit (x : Z) : ascii :=
  ascii_of_nat (Z.to_nat (if x <? 10 then 48 + x else 87 + x)).

Definition hex (bytes : list Z) : string :=
  fold_right (fun b s => String (hex_digit (b / 16)) (String (hex_digit (b mod 16)) s))
             EmptyString bytes.

(** [name.encode("utf-8")] *)
Definition encode (s : string) : list Z :=
  map (fun c => Z.of_nat (nat_of_ascii c)) (list_ascii_of_string s).

(** [hashlib.md5(b).hexdigest()] *)
Definition hexdigest (s : string) : string := hex (digest (encode s)).

End MD5.

(** ** Python values, exceptions and the world *)

(** A value that is either [None] or a [str]. *)
Inductive pystr : Type :=
| PyNone
| PyStr (s : string).

(** Truth value of [v] in a condition: [None] and the empty text are false. *)
Definition truthy (v : pystr) : bool :=
  match v with
  | PyNone => false
  | PyStr s => negb (s =? "")
  end.

(** [v != '' and v is not None] *)
Definition not_empty (v : pystr) : bool :=
  match v with
  | PyNone => false
  | PyStr s => negb (s =? "")
  end.

(** [v == "" or v is None] *)
Definition is_empty (v : pystr) : bool :=
  match v with
  | PyNone => true
  | PyStr s => s =? ""
  end.

(** How an f-string prints [v]. *)
Definition fmt (v : pystr) : string :=
  match v with
  | PyNone => "None"
  | PyStr s => s
  end.

(** The exceptions the program meets; all are subclasses of [Exception].
    [ConnectionError], [DALFormatError] and [ParseError] stand for the
    transport-level failures of a catalog fetch: a refused connection, a
    malformed response, a schema that does not parse.  [Interrupted] is the
    exception with which a call ends when SIGALRM strikes inside it: the
    [TimeoutError] that the handler of [timeout] raises, or the exception
    into which the library that was interrupted turns it (requests reports
    a read that timed out).  Which of them reaches the program is the
    library's business; the program only tells exceptions from returns. *)
Inductive Exn : Type :=
| Interrupted
| AttributeError
| TypeError
| IndexError
| ConnectionError
| DALFormatError
| ParseError.

Inductive result (A : Type) : Type :=
| Ok (a : A)
| Raised (e : Exn).
Arguments Ok {A} a.
Arguments Raised {A} e.

Definition rbind {A B : Type} (r : result A) (k : A -> result B) : result B :=
  match r with
  | Ok a => k a
  | Raised e => Raised e
  end.

(** What pyvo reports for one column of a table ([datatype] is an object
    with a [content], or [None]) and for one table. *)
Module RemoteColumn.
Record t : Type := mk {
  name : string;
  datatype : option pystr;
  unit : pystr;
  description : pystr }.
End RemoteColumn.

Module RemoteTable.
Record t : Type := mk {
  name : string;
  type : string;
  columns : list RemoteColumn.t }.
End RemoteTable.

(** One [next()] on the iteration of [service.tables]: after [delay]
    seconds either a table arrives or the transport fails.  The fetch done
    by the property access itself is the first step.  Every step ends: a
    service that never answers is not expressed.  Under the alarm it would
    be a step longer than the deadline; outside the alarm, where the
    compliance check runs, the call would never return, and what the
    development proves of that check holds of reads that end. *)
Inductive ReadStep : Type :=
| Yield (delay : nat) (table : RemoteTable.t)
| Fault (delay : nat) (e : Exn).

Definition CatalogRead : Type := list ReadStep.

(** [reads] counts the accesses of the run to a [tables] property, and
    [net w url k] is what the [k]-th access, made on a service at [url],
    delivers when it is iterated: the tables come from the network, or
    from what pyvo kept on the service object at an earlier access (see
    [second_access] below for the oracles that follow pyvo's cache).
    [alarm] is the number of seconds left before SIGALRM is delivered, when
    an alarm is pending. *)
Record World : Type := mkWorld {
  net : string -> nat -> CatalogRead;
  reads : nat;
  alarm : option nat }.

Definition M (A : Type) : Type := World -> result A * World.

Definition ret {A : Type} (a : A) : M A := fun w => (Ok a, w).

Definition raise {A : Type} (e : Exn) : M A := fun w => (Raised e, w).

Definition bind {A B : Type} (c : M A) (k : A -> M B) : M B :=
  fun w =>
    match c w with
    | (Ok a, w') => k a w'
    | (Raised e, w') => (Raised e, w')
    end.

Definition lift {A : Type} (r : result A) : M A := fun w => (r, w).

(** [try: c  except Exception as e: h e] *)
Definition try_except {A : Type} (c : M A) (h : Exn -> M A) : M A :=
  fun w =>
    match c w with
    | (Ok a, w') => (Ok a, w')
    | (Raised e, w') => h e w'
    end.

Declare Scope py_scope.
Delimit Scope py_scope with py.
Notation "x <- c ;; k" := (bind c (fun x => k))
  (at level 61, c at next level, right associativity) : py_scope.
Notation "' p <- c ;; k" := (bind c (fun x => let p := x in k))
  (at level 61, p pattern, c at next level, right associativity) : py_scope.
Open Scope py_scope.

(** [signal.alarm(seconds)]: zero cancels the pending alarm. *)
Definition signal_alarm (seconds : nat) (w : World) : World :=
  mkWorld (net w) (reads w)
          (match seconds with O => None | S _ => Some seconds end).

(** [d] seconds pass inside a blocking call.  A pending alarm that expires
    before the call is over, or at the very second at which it would be
    over, interrupts it (the alarm was armed before the call began): the
    handler installed by [timeout] raises there, and the call ends with
    [Interrupted]. *)
Definition tick (d : nat) : M unit :=
  fun w =>
    match alarm w with
    | None => (Ok tt, w)
    | Some remaining =>
        if (remaining <=? d)%nat
        then (Raised Interrupted, mkWorld (net w) (reads w) None)
        else (Ok tt, mkWorld (net w) (reads w) (Some (remaining - d)))
    end.

(** The decorator [timeout(seconds)] around [func]. *)
Definition timeout {A : Type} (seconds : nat) (func : M A) : M A :=
  fun w =>
    let w := signal_alarm seconds w in
    let '(r, w) := func w in
    (* finally: signal.alarm(0) *)
    (r, signal_alarm 0 w).

Definition next_item (st : ReadStep) : M RemoteTable.t :=
  match st with
  | Yield d table => _ <- tick d ;; ret table
  | Fault d e => _ <- tick d ;; raise e
  end.

(** [pyvo.dal.TAPService] *)
Module TAPService.
Record t : Type := mk { baseurl : string }.

(** The property [tables]: one access.  pyvo answers it with a fetch, or
    from the table set it kept at an earlier access on the same object; the
    oracle says what the access delivers. *)
Definition tables (s : t) : M CatalogRead :=
  fun w => (Ok (net w (baseurl s) (reads w)),
            mkWorld (net w) (S (reads w)) (alarm w)).
End TAPService.

(** A registry record, or [NonIVOATapArchiveWrapper]: reading [access_url]
    may raise. *)
Module ArchiveObject.
Record t : Type := mk {
  access_url : result pystr;
  res_title : pystr;
  short_name : pystr }.
End ArchiveObject.

(** [NonIVOATapArchiveWrapper(access_url)] *)
Definition NonIVOATapArchiveWrapper (access_url : pystr) : ArchiveObject.t :=
  ArchiveObject.mk (Ok access_url) (PyStr "") (PyStr "").

(** ** class TapArchive *)

Module TapArchive.

Definition OBSCORE_TABLE : string := "ivoa.obscore".

Module Field.
Record t : Type := mk {
  name : string;
  type : pystr;
  unit : pystr;
  description : pystr }.
End Field.

Module Table.
Record t : Type := mk {
  name : string;
  type : string;
  fields : list Field.t }.
End Table.

(** The attributes of an instance.  [service] and [tables] start as
    [None]; [access_url], [name] and [hash] do not exist until they are
    assigned, and reading one that does not exist raises. *)
Record t : Type := mk {
  archive_object : ArchiveObject.t;
  initialized : bool;
  service : option TAPService.t;
  tables : option (list Table.t);
  access_url : option pystr;
  name : option pystr;
  hash : option string }.

Definition set_initialized (self : t) (b : bool) : t :=
  mk (archive_object self) b (service self) (tables self)
     (access_url self) (name self) (hash self).

Definition set_service (self : t) (s : TAPService.t) : t :=
  mk (archive_object self) (initialized self) (Some s) (tables self)
     (access_url self) (name self) (hash self).

Definition set_tables (self : t) (l : list Table.t) : t :=
  mk (archive_object self) (initialized self) (service self) (Some l)
     (access_url self) (name self) (hash self).

Definition set_access_url (self : t) (u : pystr) : t :=
  mk (archive_object self) (initialized self) (service self) (tables self)
     (Some u) (name self) (hash self).

Definition set_name (self : t) (n : pystr) : t :=
  mk (archive_object self) (initialized self) (service self) (tables self)
     (access_url self) (Some n) (hash self).

Definition set_hash (self : t) (h : string) : t :=
  mk (archive_object self) (initialized self) (service self) (tables self)
     (access_url self) (name self) (Some h).

Definition _set_name (self : t) : result t :=
  let self := set_name self (PyStr "") in
  if not_empty (ArchiveObject.res_title (archive_object self)) then
    Ok (set_name self (ArchiveObject.res_title (archive_object self)))
  else if not_empty (ArchiveObject.short_name (archive_object self)) then
    Ok (set_name self (ArchiveObject.short_name (archive_object self)))
  else
    match access_url self with
    | None => Raised AttributeError
    | Some u => Ok (set_name self u)
    end.

Definition _set_hash (self : t) : result t :=
  match name self with
  | None => Raised AttributeError
  | Some n =>
      rbind (if truthy n then Ok self else _set_name self) (fun self =>
      match name self with
      | Some (PyStr s) => Ok (set_hash self (MD5.hexdigest s))
      | _ => Raised AttributeError
      end)
  end.

Definition _set_service (self : t) (url : string) : t :=
  set_service self (TAPService.mk url).

(** The inner loop of [_set_tables] over [table.columns]. *)
Fixpoint _set_tables_fields (columns : list RemoteColumn.t)
    (fields : list Field.t) : result (list Field.t) :=
  match columns with
  | [] => Ok fields
  | table_field :: rest =>
      match RemoteColumn.datatype table_field with
      | None => Raised AttributeError
      | Some content =>
          _set_tables_fields rest
            (fields ++ [Field.mk (RemoteColumn.name table_field) content
                                 (RemoteColumn.unit table_field)
                                 (RemoteColumn.description table_field)])
      end
  end.

(** The loop of [_set_tables] over [self.service.tables], run inside the
    [try]: it stops at the first exception and hands it over together with
    the tables appended so far. *)
Fixpoint _set_tables_loop (steps : CatalogRead) (tables : list Table.t)
    (w : World) : (list Table.t * option Exn) * World :=
  match steps with
  | [] => ((tables, None), w)
  | st :: rest =>
      match next_item st w with
      | (Raised e, w) => ((tables, Some e), w)
      | (Ok table, w) =>
          match _set_tables_fields (RemoteTable.columns table) [] with
          | Raised e => ((tables, Some e), w)
          | Ok fields =>
              _set_tables_loop rest
                (tables ++ [Table.mk (RemoteTable.name table)
                                     (RemoteTable.type table) fields]) w
          end
      end
  end.

(** The body of [_set_tables], before decoration. *)
Definition _set_tables_body (self : t) : M t :=
  fun w =>
    let '((tables, _), w) :=
      match service self with
      | None => (([], Some AttributeError), w)
      | Some s =>
          match TAPService.tables s w with
          | (Ok steps, w) => _set_tables_loop steps [] w
          | (Raised e, w) => (([], Some e), w)
          end
      end in
    (* except Exception as e: print(e) *)
    (Ok (set_tables self tables), w).

Definition _set_tables (self : t) : M t := timeout 5 (_set_tables_body self).

(** Returns the value of [_initialize] and the instance as it leaves it. *)
Definition _initialize (self : t) : M (bool * t) :=
  match ArchiveObject.access_url (archive_object self) with
  | Raised _ => ret (false, self)
  | Ok url =>
      let self := set_access_url self url in
      match url with
      | PyNone => ret (false, self)
      | PyStr u =>
          if u =? "" then ret (false, self)
          else
            let self := _set_service self u in
            try_except
              (self <- _set_tables self ;; ret (true, self))
              (fun _ => ret (false, self))
      end
  end.

Definition __init__ (archive_object : ArchiveObject.t) : M t :=
  let self := mk archive_object false None None None None None in
  ' (ok, self) <- _initialize self ;;
  let self := set_initialized self ok in
  if ok then
    self <- lift (_set_name self) ;;
    self <- lift (_set_hash self) ;;
    ret self
  else ret self.

Definition get_name (self : t) : result (pystr * t) :=
  match name self with
  | None => Raised AttributeError
  | Some n =>
      rbind (if truthy n then Ok self else _set_name self) (fun self =>
      match name self with
      | Some n => Ok (n, self)
      | None => Raised AttributeError
      end)
  end.

Definition get_hash (self : t) : result (string * t) :=
  match hash self with
  | None => Raised AttributeError
  | Some h =>
      rbind (if h =? "" then _set_hash self else Ok self) (fun self =>
      match hash self with
      | Some h => Ok (h, self)
      | None => Raised AttributeError
      end)
  end.

(** The loop of [_is_ivoa_compliant], run inside the [try]; an exception
    ends it with [is_compliant] still false. *)
Fixpoint _is_ivoa_compliant_loop (steps : CatalogRead) (w : World)
    : bool * World :=
  match steps with
  | [] => (false, w)
  | st :: rest =>
      match next_item st w with
      | (Raised e, w) => (false, w)
      | (Ok table, w) =>
          if lower (RemoteTable.name table) =? OBSCORE_TABLE then (true, w)
          else _is_ivoa_compliant_loop rest w
      end
  end.

Definition _is_ivoa_compliant (self : t) : M bool :=
  fun w =>
    match service self with
    | None => (Ok false, w)
    | Some s =>
        match TAPService.tables s w with
        | (Ok steps, w) =>
            let '(is_compliant, w) := _is_ivoa_compliant_loop steps w in
            (Ok is_compliant, w)
        | (Raised e, w) => (Ok false, w)
        end
    end.

Definition is_ivoa (self : t) : M bool := _is_ivoa_compliant self.

End TapArchive.

(** ** The elements of the generated block *)

Module ToolParam.

Definition DEFAULT_TYPE : string := "text".

Definition allowed_type_list : list string := ["int"; "text"; "float"; "select"].

Record t : Type := mk {
  name : string;
  label : string;
  data_type : string;
  help : pystr }.

Definition _is_type_valid (data_type : string) : bool :=
  if existsb (String.eqb data_type) allowed_type_list then true else false.

Definition __init__ (name label : string) (data_type help : pystr) : t :=
  let data_type :=
    match data_type with
    | PyStr s =>
        if negb (s =? "") then
          if negb (_is_type_valid s) then DEFAULT_TYPE else s
        else DEFAULT_TYPE
    | PyNone => DEFAULT_TYPE
    end in
  mk name label data_type help.

Definition get_xml (self : t) : string :=
  if negb (data_type self =? "") && truthy (help self) then
    "<param name=" ++ dq ++ name self ++ dq ++ " type=" ++ dq ++ data_type self
      ++ dq ++ " label=" ++ dq ++ label self ++ dq ++ " help=" ++ dq
      ++ fmt (help self) ++ dq ++ " />"
  else if negb (data_type self =? "") then
    "<param name=" ++ dq ++ name self ++ dq ++ " type=" ++ dq ++ data_type self
      ++ dq ++ " label=" ++ dq ++ label self ++ dq ++ " />"
  else if truthy (help self) then
    "<param name=" ++ dq ++ name self ++ dq ++ " type=" ++ dq ++ DEFAULT_TYPE
      ++ dq ++ " label=" ++ dq ++ label self ++ dq ++ " help=" ++ dq
      ++ fmt (help self) ++ dq ++ " />"
  else
    "<param name=" ++ dq ++ name self ++ dq ++ " type=" ++ dq ++ DEFAULT_TYPE
      ++ dq ++ " label=" ++ dq ++ label self ++ dq ++ " />".

End ToolParam.

Module ToolOption.

Record t : Type := mk {
  value : string;
  name : pystr }.

Definition get_xml (self : t) : string :=
  "<option value=" ++ dq ++ value self ++ dq ++ ">" ++ fmt (name self)
    ++ "</option>".

End ToolOption.

Module ToolSelect.

Record t : Type := mk {
  name : string;
  label : string;
  options : list ToolOption.t }.

Definition get_xml (self : t) : string :=
  let select_top :=
    "<param name=" ++ dq ++ name self ++ dq ++ " type=" ++ dq ++ "select" ++ dq
      ++ " label=" ++ dq ++ label self ++ dq ++ ">" in
  let select_bot := "</param>" in
  let select := select_top ++ nl in
  let select :=
    fold_left (fun select option => select ++ tab ++ ToolOption.get_xml option ++ nl)
              (options self) select in
  select ++ select_bot ++ nl.

End ToolSelect.

Module ToolWhen.

(** What [params] holds: the download selector and the parameters; both
    answer [get_xml]. *)
Inductive param : Type :=
| Select (s : ToolSelect.t)
| Param (p : ToolParam.t).

Definition param_get_xml (p : param) : string :=
  match p with
  | Select s => ToolSelect.get_xml s
  | Param p => ToolParam.get_xml p
  end.

Record t : Type := mk {
  value : string;
  params : list param }.

Definition get_xml (self : t) : string :=
  let when_top := "<when value=" ++ dq ++ value self ++ dq ++ ">" ++ nl in
  let when_bot := "</when>" in
  let when_top :=
    fold_left (fun when_top param => when_top ++ tab ++ param_get_xml param ++ nl)
              (params self) when_top in
  when_top ++ when_bot ++ nl.

End ToolWhen.

Module ToolConditional.

Definition CONDITIONAL_TAG_OPEN : string := "<conditional> " ++ nl.
Definition CONDITIONAL_TAG_CLOSE : string := "</conditional> " ++ nl.

End ToolConditional.

Module ToolWhenNested.

Record t : Type := mk {
  value : string;
  xml_params : string }.

Definition get_xml (self : t) : string :=
  let when_top := "<when value=" ++ dq ++ value self ++ dq ++ ">" ++ nl in
  let when_top := when_top ++ ToolConditional.CONDITIONAL_TAG_OPEN in
  let when_bot := ToolConditional.CONDITIONAL_TAG_CLOSE in
  let when_bot := when_bot ++ "</when>" in
  let when_top := when_top ++ xml_params self ++ nl in
  when_top ++ when_bot ++ nl.

End ToolWhenNested.

(** ** class QueryBuildersBlock *)

Module QueryBuildersBlock.

Definition BLOCK_NAME : string := "query_type".
Definition BLOCK_LABEL : string := "ADQL Query Selection".

Definition TABLE_SELECTION_BLOCK_NAME : string := "table_selection".
Definition TABLE_SELECTION_BLOCK_LABEL : string := "Table selection".

Definition GENERIC_QUERY_NAME : string := "none".
Definition GENERIC_QUERY_LABEL : string :=
  "No specific query (first n files from archive)".

Definition IVOA_BUILDER_NAME : string := "obscore_query".
Definition IVOA_BUILDER_LABEL : string := "IVOA obscore table query builder".

Definition RAW_QUERY_NAME : string := "raw_query".
Definition RAW_QUERY_LABEL : string := "Raw ADQL query builder".

Definition ACCESS_URL_INPUT_NAME : string := "access_url".
Definition ACCESS_URL_INPUT_LABEL : string := "Url download field".
Definition ACCESS_URL_INPUT_HELP : string :=
  "Field containing the download url of the file".

(** [builder_selection_block] starts as the empty text, which has no
    [get_xml]: [None] stands for it. *)
Record t : Type := mk {
  archive_list : list TapArchive.t;
  builder_selection_block : option ToolSelect.t;
  builders_block : string }.

Definition __init__ (archive_list : list TapArchive.t) : t :=
  mk archive_list None "".

(** The loop of [generate_builder_selection_block] over the archives.  The
    getters may assign attributes of the archive they are called on, so the
    archives are handed back as the loop leaves them. *)
Fixpoint generate_builder_selection_loop (archives : list TapArchive.t)
    (options : list ToolOption.t)
    : result (list ToolOption.t * list TapArchive.t) :=
  match archives with
  | [] => Ok (options, [])
  | archive :: rest =>
      rbind (TapArchive.get_hash archive) (fun '(h, archive) =>
      rbind (TapArchive.get_name archive) (fun '(n, archive) =>
      let option := ToolOption.mk h n in
      rbind (generate_builder_selection_loop rest (options ++ [option]))
            (fun '(options, rest) => Ok (options, archive :: rest))))
  end.

Definition generate_builder_selection_block (self : t) : result (ToolSelect.t * t) :=
  let options := [] in
  let option := ToolOption.mk GENERIC_QUERY_NAME (PyStr GENERIC_QUERY_LABEL) in
  let options := (options ++ [option])%list in
  let option := ToolOption.mk IVOA_BUILDER_NAME (PyStr IVOA_BUILDER_LABEL) in
  let options := (options ++ [option])%list in
  let option := ToolOption.mk RAW_QUERY_NAME (PyStr RAW_QUERY_LABEL) in
  let options := (options ++ [option])%list in
  rbind (generate_builder_selection_loop (archive_list self) options)
        (fun '(options, archives) =>
  Ok (ToolSelect.mk BLOCK_NAME BLOCK_LABEL options,
      mk archives (builder_selection_block self) (builders_block self))).

(** The body of the loop of [generate_builder_params_block]: the sub-branch
    of one table. *)
Definition generate_builder_params_table (table : TapArchive.Table.t) : ToolWhen.t :=
  let download_url_param :=
    ToolParam.__init__ ACCESS_URL_INPUT_NAME ACCESS_URL_INPUT_LABEL
                       (PyStr "text") (PyStr ACCESS_URL_INPUT_HELP) in
  let fields_params := [ToolWhen.Param download_url_param] in
  let '(download_url_param_options, fields_params) :=
    fold_left (fun '(download_url_param_options, fields_params) field =>
      let download_url_param_option :=
        ToolOption.mk (TapArchive.Field.name field)
                      (PyStr (TapArchive.Field.name field)) in
      let field_param :=
        ToolParam.__init__ (TapArchive.Field.name field)
                           (TapArchive.Field.name field)
                           (TapArchive.Field.type field)
                           (TapArchive.Field.description field) in
      ((download_url_param_options ++ [download_url_param_option])%list,
       (fields_params ++ [ToolWhen.Param field_param])%list))
      (TapArchive.Table.fields table) ([], fields_params) in
  let tool_select_name := "download_url" in
  let download_url_select :=
    ToolSelect.mk tool_select_name "Download field" download_url_param_options in
  (* fields_params.insert(0, download_url_select) *)
  let fields_params := ToolWhen.Select download_url_select :: fields_params in
  ToolWhen.mk (TapArchive.Table.name table) fields_params.

Definition generate_builder_params_block (archive_tables : list TapArchive.Table.t)
    : list ToolWhen.t :=
  fold_left (fun query_builders_params table =>
               (query_builders_params ++ [generate_builder_params_table table])%list)
            archive_tables [].

Definition generate_builder_table_selection_block
    (archive_tables : list TapArchive.Table.t) : ToolSelect.t :=
  let options :=
    fold_left (fun options table =>
      (options ++ [ToolOption.mk (TapArchive.Table.name table)
                                 (PyStr (TapArchive.Table.name table))])%list)
      archive_tables [] in
  ToolSelect.mk TABLE_SELECTION_BLOCK_NAME TABLE_SELECTION_BLOCK_LABEL options.

(** The loop of [generate_builders_block]; iterating over [archive.tables]
    when it is [None] raises. *)
Fixpoint generate_builders_loop (archives : list TapArchive.t)
    (builders_block : string) : result (string * list TapArchive.t) :=
  match archives with
  | [] => Ok (builders_block, [])
  | archive :: rest =>
      match TapArchive.tables archive with
      | None => Raised TypeError
      | Some tables =>
          let query_builder_table_selection_block :=
            generate_builder_table_selection_block tables in
          let query_builder_params := generate_builder_params_block tables in
          let xml_params := ToolSelect.get_xml query_builder_table_selection_block in
          let xml_params :=
            fold_left (fun xml_params qbp => xml_params ++ ToolWhen.get_xml qbp)
                      query_builder_params xml_params in
          rbind (TapArchive.get_hash archive) (fun '(h, archive) =>
          let query_builder_block := ToolWhenNested.mk h xml_params in
          rbind (generate_builders_loop rest
                   (builders_block ++ ToolWhenNested.get_xml query_builder_block))
                (fun '(builders_block, rest) => Ok (builders_block, archive :: rest)))
      end
  end.

Definition generate_builders_block (self : t) : result (string * t) :=
  rbind (generate_builders_loop (archive_list self) "")
        (fun '(block, archives) =>
  Ok (block, mk archives (builder_selection_block self) (builders_block self))).

Definition generate_block (self : t) : result t :=
  rbind (generate_builder_selection_block self) (fun '(block, self) =>
  let self := mk (archive_list self) (Some block) (builders_block self) in
  rbind (generate_builders_block self) (fun '(block, self) =>
  Ok (mk (archive_list self) (builder_selection_block self) block))).

Definition get_xml (self : t) : result string :=
  match builder_selection_block self with
  | None => Raised AttributeError
  | Some block => Ok (ToolSelect.get_xml block ++ builders_block self)
  end.

End QueryBuildersBlock.

(** ** Module-level functions *)

(** [archive_list.getrecord(i)] on the registry's answer. *)
Definition getrecord (archive_list : list ArchiveObject.t) (i : nat)
    : M ArchiveObject.t :=
  match nth_error archive_list i with
  | Some archive_record => ret archive_record
  | None => raise IndexError
  end.

Fixpoint get_non_ivoa_archives_loop (indices : list nat)
    (archive_list : list ArchiveObject.t) (non_ivoa_archives : list TapArchive.t)
    : M (list TapArchive.t) :=
  match indices with
  | [] => ret non_ivoa_archives
  | i :: rest =>
      archive_record <- getrecord archive_list i ;;
      archive <- TapArchive.__init__ archive_record ;;
      if TapArchive.initialized archive then
        is_ivoa <- TapArchive.is_ivoa archive ;;
        if negb is_ivoa then
          get_non_ivoa_archives_loop rest archive_list (non_ivoa_archives ++ [archive])
        else get_non_ivoa_archives_loop rest archive_list non_ivoa_archives
      else get_non_ivoa_archives_loop rest archive_list non_ivoa_archives
  end.

Definition get_non_ivoa_archives (archive_list : list ArchiveObject.t)
    : M (list TapArchive.t) :=
  (* for i in range(10), the header over range(archive_list.__len__())
     being commented out in the source *)
  get_non_ivoa_archives_loop (seq 0 10) archive_list [].

(** [test_main] up to the file write, on the registry's answer
    [archives]: curate, build the block, render it. *)
Definition test_main (archives : list ArchiveObject.t) : M string :=
  curated_tap_archives <- get_non_ivoa_archives archives ;;
  let qbb := QueryBuildersBlock.__init__ curated_tap_archives in
  qbb <- lift (QueryBuildersBlock.generate_block qbb) ;;
  lift (QueryBuildersBlock.get_xml qbb).

(** [create_archive_object_non_ivoa] *)
Definition create_archive_object_non_ivoa (access_url : pystr) : ArchiveObject.t :=
  let archive_object := NonIVOATapArchiveWrapper access_url in
  archive_object.

(** [_get_archive_name]: the hash and the name of a registry record, without
    a [TapArchive].  Encoding a name that is [None] raises. *)
Definition _get_archive_name (archive_detail : ArchiveObject.t)
    : result (string * pystr) :=
  rbind (if not_empty (ArchiveObject.res_title archive_detail) then
           Ok (ArchiveObject.res_title archive_detail)
         else if not_empty (ArchiveObject.short_name archive_detail) then
           Ok (ArchiveObject.short_name archive_detail)
         else ArchiveObject.access_url archive_detail) (fun name =>
  match name with
  | PyStr s => Ok (MD5.hexdigest s, name)
  | PyNone => Raised AttributeError
  end).

(** The inner loop of the module-level [_set_archive_tables].  The dict of a
    field, with the keys name, description, unit and datatype, is carried
    as a [TapArchive.Field.t], and the dict of a table, with the keys name,
    type and fields, as a [TapArchive.Table.t]. *)
Fixpoint _set_archive_tables_fields (columns : list RemoteColumn.t)
    (fields : list TapArchive.Field.t) : result (list TapArchive.Field.t) :=
  match columns with
  | [] => Ok fields
  | table_field :: rest =>
      match RemoteColumn.datatype table_field with
      | None => Raised AttributeError
      | Some content =>
          _set_archive_tables_fields rest
            (fields ++ [TapArchive.Field.mk (RemoteColumn.name table_field) content
                                            (RemoteColumn.unit table_field)
                                            (RemoteColumn.description table_field)])
      end
  end.

(** The loop of [_set_archive_tables]: no [try] around it. *)
Fixpoint _set_archive_tables_loop (steps : CatalogRead)
    (tables : list TapArchive.Table.t) : M (list TapArchive.Table.t) :=
  match steps with
  | [] => ret tables
  | st :: rest =>
      table <- next_item st ;;
      fields <- lift (_set_archive_tables_fields (RemoteTable.columns table) []) ;;
      _set_archive_tables_loop rest
        (tables ++ [TapArchive.Table.mk (RemoteTable.name table)
                                        (RemoteTable.type table) fields])
  end.

(** [_set_archive_tables], decorated with [timeout(5)]; it returns [None]. *)
Definition _set_archive_tables (archive_service : TAPService.t) : M unit :=
  timeout 5 (steps <- TAPService.tables archive_service ;;
             _ <- _set_archive_tables_loop steps [] ;;
             ret tt).

(** [create_query_builders_xml_block] on the registry's answer
    [archive_list]. *)
Definition create_query_builders_xml_block (archive_list : list ArchiveObject.t)
    : M string :=
  let xml_query_builder_block := "" in
  curated_archive_list <- get_non_ivoa_archives archive_list ;;
  let qbb := QueryBuildersBlock.__init__ curated_archive_list in
  ret xml_query_builder_block.

(** ** The specification's vocabulary *)

(** The name-priority rule in the specification's words: the first
    non-empty of displayName, shortName and accessURL, in that order. *)
Definition resolvedName (displayName shortName accessURL : pystr) : pystr :=
  if is_empty displayName then
    if is_empty shortName then accessURL else shortName
  else displayName.

(** introspectionState = Ready: the archive is what the constructor
    returned for some descriptor, and it is initialized. *)
Definition Ready (a : TapArchive.t) : Prop :=
  exists o w w', TapArchive.__init__ o w = (Ok a, w')
                 /\ TapArchive.initialized a = true.

(** The descriptor's accessURL is empty or missing. *)
Definition url_absent (o : ArchiveObject.t) : Prop :=
  match ArchiveObject.access_url o with
  | Raised _ => True
  | Ok v => is_empty v = true
  end.

(** No step of the read is a failure. *)
Definition faultless (steps : CatalogRead) : bool :=
  forallb (fun st => match st with Yield _ _ => true | Fault _ _ => false end) steps.

(** The tables a read delivers before its first failure. *)
Fixpoint yielded (steps : CatalogRead) : list RemoteTable.t :=
  match steps with
  | Yield _ table :: rest => table :: yielded rest
  | _ => []
  end.

(** The table is named as the reference table, case-insensitively. *)
Definition is_reference (table_name : string) : bool :=
  lower table_name =? TapArchive.OBSCORE_TABLE.

(** Curation in the specification's words: introspect each candidate in
    turn and retain, in candidate order, the archives that are Ready and
    not compliant. *)
Fixpoint curate (candidates : list ArchiveObject.t) : M (list TapArchive.t) :=
  match candidates with
  | [] => ret []
  | candidate :: rest =>
      archive <- TapArchive.__init__ candidate ;;
      retained <- (if TapArchive.initialized archive
                   then compliant <- TapArchive.is_ivoa archive ;; ret (negb compliant)
                   else ret false) ;;
      curated <- curate rest ;;
      ret (if retained then archive :: curated else curated)
  end.

(** A column as the specification normalizes it into a Field, and a table
    into a Table. *)
Definition normalize_column (column : RemoteColumn.t) : TapArchive.Field.t :=
  TapArchive.Field.mk (RemoteColumn.name column)
                      (match RemoteColumn.datatype column with
                       | Some content => content
                       | None => PyNone
                       end)
                      (RemoteColumn.unit column) (RemoteColumn.description column).

Definition normalize (table : RemoteTable.t) : TapArchive.Table.t :=
  TapArchive.Table.mk (RemoteTable.name table) (RemoteTable.type table)
                      (map normalize_column (RemoteTable.columns table)).

(** Every column of the table reports a datatype. *)
Definition well_typed (table : RemoteTable.t) : bool :=
  forallb (fun column => match RemoteColumn.datatype column with
                         | Some _ => true
                         | None => false
                         end) (RemoteTable.columns table).

(** The seconds a read takes when it is followed to its end. *)
Definition total_delay (steps : CatalogRead) : nat :=
  fold_right (fun st total => match st with
                              | Yield d _ => d + total
                              | Fault d _ => d + total
                              end) 0 steps.

(** The step ends the collection of tables when [remaining] seconds are left
    before the alarm: it is not over before the alarm strikes, or it fails,
    or it delivers a table with a column that reports no datatype. *)
Definition stops (remaining : nat) (st : ReadStep) : Prop :=
  match st with
  | Yield d table => remaining <= d \/ well_typed table = false
  | Fault _ _ => True
  end.

(** The exception with which such a step ends the collection: that of the
    interruption when the alarm strikes first, otherwise the failure of the
    step or the missing attribute. *)
Definition stop_exception (remaining : nat) (st : ReadStep) : Exn :=
  match st with
  | Yield d _ => if (remaining <=? d)%nat then Interrupted else AttributeError
  | Fault d e => if (remaining <=? d)%nat then Interrupted else e
  end.

(** The tables that a pass over [steps] has delivered when it is made with
    [remaining] seconds left before the alarm: those of the steps that are
    over before the alarm strikes and before the first failure.  pyvo keeps
    them on the service object. *)
Fixpoint delivered (remaining : nat) (steps : CatalogRead) : list RemoteTable.t :=
  match steps with
  | Yield d table :: rest =>
      if (remaining <=? d)%nat then [] else table :: delivered (remaining - d) rest
  | _ => []
  end.

(** The pass is over before the alarm strikes and meets no failure. *)
Definition complete (remaining : nat) (steps : CatalogRead) : bool :=
  faultless steps && (total_delay steps <? remaining)%nat.

(** The tables come at once, without a request. *)
Definition replay (tables : list RemoteTable.t) : CatalogRead :=
  map (Yield 0) tables.

(** What pyvo delivers at the second access to [tables] of one service
    object, when the first access, made under the alarm of five seconds,
    met [first], and a fetch made anew at the time of the second access
    would meet [fresh].  pyvo keeps the table set of the service and the
    tables it has delivered: these come again at once.  When the first
    pass was complete nothing else comes and no request is made; otherwise
    the tables not yet delivered come as the fetch made anew delivers
    them.  (pyvo is not part of the repository; this follows its
    [TAPService.tables], which fetches the table set once per object.) *)
Definition second_access (first fresh : CatalogRead) : CatalogRead :=
  if complete 5 first then replay (delivered 5 first)
  else (replay (delivered 5 first)
        ++ skipn (length (delivered 5 first)) fresh)%list.

(** The descriptor has a non-empty access URL. *)
Definition present (o : ArchiveObject.t) : bool :=
  match ArchiveObject.access_url o with
  | Ok (PyStr u) => negb (u =? "")
  | _ => false
  end.

(** [l1] is [l2] with some elements left out, the order kept. *)
Inductive subsequence {A : Type} : list A -> list A -> Prop :=
| subsequence_nil : subsequence [] []
| subsequence_skip (x : A) (l1 l2 : list A) :
    subsequence l1 l2 -> subsequence l1 (x :: l2)
| subsequence_keep (x : A) (l1 l2 : list A) :
    subsequence l1 l2 -> subsequence (x :: l1) (x :: l2).

(** The texts one after the other. *)
Definition join (texts : list string) : string :=
  fold_right append "" texts.

(** The character is a lowercase hexadecimal digit. *)
Definition hex_char (c : ascii) : Prop :=
  In c (list_ascii_of_string "0123456789abcdef").

(** The three fixed options of the root selector. *)
Definition fixed_options : list ToolOption.t :=
  [ToolOption.mk "none" (PyStr "No specific query (first n files from archive)");
   ToolOption.mk "obscore_query" (PyStr "IVOA obscore table query builder");
   ToolOption.mk "raw_query" (PyStr "Raw ADQL query builder")].

(** ** Services used in the examples *)

Definition photometry : RemoteTable.t :=
  RemoteTable.mk "photometry" "table"
    [RemoteColumn.mk "ra" (Some (PyStr "float")) (PyStr "deg")
                     (PyStr "Right ascension");
     RemoteColumn.mk "payload" (Some (PyStr "blob")) PyNone PyNone].

Definition obscore : RemoteTable.t := RemoteTable.mk "IVOA.ObsCore" "view" [].

(** [photometry] as [_set_tables] normalizes it. *)
Definition photometry_table : TapArchive.Table.t :=
  TapArchive.Table.mk "photometry" "table"
    [TapArchive.Field.mk "ra" (PyStr "float") (PyStr "deg") (PyStr "Right ascension");
     TapArchive.Field.mk "payload" (PyStr "blob") PyNone PyNone].

Definition obscore_table : TapArchive.Table.t :=
  TapArchive.Table.mk "IVOA.ObsCore" "view" [].

(** The services of the examples:
    - https://x/tap lists photometry, then the connection fails;
    - https://slow/tap lists photometry after 2 seconds and needs 4 more
      seconds for the next table;
    - https://ok/tap lists photometry and the reference table on every read;
    - https://core/tap lists the reference table on the first read of the
      run and fails on every later read;
    - https://flaky/tap lists photometry on the first read of the run and
      sends a malformed answer after photometry on every later read;
    - every other service has an empty catalog. *)
Definition example_net (url : string) (k : nat) : CatalogRead :=
  if url =? "https://x/tap" then
    [Yield 1 photometry; Fault 1 ConnectionError; Yield 1 obscore]
  else if url =? "https://slow/tap" then [Yield 2 photometry; Yield 4 obscore]
  else if url =? "https://ok/tap" then [Yield 1 photometry; Yield 1 obscore]
  else if url =? "https://core/tap" then
    match k with
    | O => [Yield 1 obscore]
    | S _ => [Fault 1 ConnectionError]
    end
  else if url =? "https://flaky/tap" then
    match k with
    | O => [Yield 1 photometry]
    | S _ => [Yield 1 photometry; Fault 1 DALFormatError]
    end
  else [].

Definition example_world : World := mkWorld example_net 0 None.

(** The same services as one service object meets them through pyvo:
    access 0 is the fetch of the constructor, and a later access is served
    as [second_access] says, where a fetch made anew would meet
    [example_net url k]. *)
Definition cached_net (url : string) (k : nat) : CatalogRead :=
  match k with
  | O => example_net url 0
  | S _ => second_access (example_net url 0) (example_net url k)
  end.

Definition cached_world : World := mkWorld cached_net 0 None.

(** A registry record with an access URL and no titles. *)
Definition descriptor (url : string) : ArchiveObject.t :=
  ArchiveObject.mk (Ok (PyStr url)) (PyStr "") (PyStr "").

(** The descriptor of the specification's name-fallback example. *)
Definition x_archive : ArchiveObject.t :=
  ArchiveObject.mk (Ok (PyStr "https://x/tap")) (PyStr "") (PyStr "X Archive").

(** A descriptor with a title and an empty access URL, and the archive the
    constructor builds for it. *)
Definition empty_url : ArchiveObject.t :=
  ArchiveObject.mk (Ok (PyStr "")) (PyStr "X Archive") (PyStr "").

Definition empty_url_archive : TapArchive.t :=
  TapArchive.mk empty_url false None None (Some (PyStr "")) None None.

(** The archive the constructor builds for [x_archive] in the examples:
    the table collected before the connection fails, and the MD5 of the
    name. *)
Definition x_tap_archive : TapArchive.t :=
  TapArchive.mk x_archive true (Some (TAPService.mk "https://x/tap"))
                (Some [photometry_table]) (Some (PyStr "https://x/tap"))
                (Some (PyStr "X Archive")) (Some "2bd70c567410bd15aba2eeb2b8edf5ac").

(** Eleven candidates, each with an empty catalog. *)
Definition eleven_candidates : list ArchiveObject.t :=
  map descriptor
      ["https://a0/tap"; "https://a1/tap"; "https://a2/tap"; "https://a3/tap";
       "https://a4/tap"; "https://a5/tap"; "https://a6/tap"; "https://a7/tap";
       "https://a8/tap"; "https://a9/tap"; "https://a10/tap"].

(** The archive the constructor builds for [descriptor url] when it
    collects the tables [tl], and when the catalog is empty. *)
Definition archive_of (url : string) (tl : list TapArchive.Table.t) : TapArchive.t :=
  TapArchive.mk (descriptor url) true (Some (TAPService.mk url)) (Some tl)
                (Some (PyStr url)) (Some (PyStr url)) (Some (MD5.hexdigest url)).

Definition empty_archive (url : string) : TapArchive.t := archive_of url [].

(** Ten records: [o], then nine candidates with an empty catalog. *)
Definition ten_led_by (o : ArchiveObject.t) : list ArchiveObject.t :=
  o :: firstn 9 eleven_candidates.

(** ** Test vectors of the digest *)

Example md5_empty : MD5.hexdigest "" = "d41d8cd98f00b204e9800998ecf8427e".
Proof. vm_compute. reflexivity. Qed.

Example md5_abc : MD5.hexdigest "abc" = "900150983cd24fb0d6963f7d28e17f72".
Proof. vm_compute. reflexivity. Qed.

Example md5_message_digest :
  MD5.hexdigest "message digest" = "f96b697d7cb7938d525a2f31aaf161d0".
Proof. vm_compute. reflexivity. Qed.

Example md5_two_blocks :
  MD5.hexdigest
    "12345678901234567890123456789012345678901234567890123456789012345678901234567890"
  = "57edf4a22be3c955ac49da2e2107b67a".
Proof. vm_compute. reflexivity. Qed.

(** ** Loops that append are maps *)

Lemma fold_left_snoc {A B : Type} (f : A -> B) (l : list A) (acc : list B) :
  fold_left (fun acc x => (acc ++ [f x])%list) l acc = (acc ++ map f l)%list.
Proof.
  revert acc. induction l as [| x l IH]; intros acc; simpl.
  - now rewrite app_nil_r.
  - rewrite IH, <- app_assoc. reflexivity.
Qed.

Lemma fold_left_snoc2 {A B C : Type} (f : A -> B) (g : A -> C) (l : list A)
    (bs : list B) (cs : list C) :
  fold_left (fun '(bs, cs) x => ((bs ++ [f x])%list, (cs ++ [g x])%list)) l (bs, cs)
  = ((bs ++ map f l)%list, (cs ++ map g l)%list).
Proof.
  revert bs cs. induction l as [| x l IH]; intros bs cs; simpl.
  - now rewrite !app_nil_r.
  - rewrite IH, <- !app_assoc. reflexivity.
Qed.

(** ** The parameters of a table's sub-branch *)

Lemma generate_builder_params_table_eq (table : TapArchive.Table.t) :
  QueryBuildersBlock.generate_builder_params_table table
  = ToolWhen.mk (TapArchive.Table.name table)
      (ToolWhen.Select
         (ToolSelect.mk "download_url" "Download field"
            (map (fun field => ToolOption.mk (TapArchive.Field.name field)
                                             (PyStr (TapArchive.Field.name field)))
                 (TapArchive.Table.fields table)))
       :: ToolWhen.Param
            (ToolParam.mk "access_url" "Url download field" "text"
               (PyStr "Field containing the download url of the file"))
       :: map (fun field =>
                 ToolWhen.Param
                   (ToolParam.__init__ (TapArchive.Field.name field)
                                       (TapArchive.Field.name field)
                                       (TapArchive.Field.type field)
                                       (TapArchive.Field.description field)))
              (TapArchive.Table.fields table)).
Proof.
  unfold QueryBuildersBlock.generate_builder_params_table. cbv zeta.
  rewrite (fold_left_snoc2
             (fun field => ToolOption.mk (TapArchive.Field.name field)
                                         (PyStr (TapArchive.Field.name field)))
             (fun field =>
                ToolWhen.Param
                  (ToolParam.__init__ (TapArchive.Field.name field)
                                      (TapArchive.Field.name field)
                                      (TapArchive.Field.type field)
                                      (TapArchive.Field.description field)))).
  reflexivity.
Qed.

Lemma generate_builder_params_block_map (archive_tables : list TapArchive.Table.t) :
  QueryBuildersBlock.generate_builder_params_block archive_tables
  = map QueryBuildersBlock.generate_builder_params_table archive_tables.
Proof.
  unfold QueryBuildersBlock.generate_builder_params_block.
  now rewrite fold_left_snoc.
Qed.

(** C6, as amended.  For every list of tables, the block holds one
    sub-branch per table, in order, keyed by the table name; the sub-branch
    holds the download_url selector with exactly one option per field, then
    the text parameter access_url, then exactly one parameter descriptor
    per field in field order, and nothing else: two synthetic entries and
    not one. *)
Theorem params_block_two_synthetic_entries :
  forall archive_tables : list TapArchive.Table.t,
    QueryBuildersBlock.generate_builder_params_block archive_tables
    = map (fun table =>
        ToolWhen.mk (TapArchive.Table.name table)
          (ToolWhen.Select
             (ToolSelect.mk "download_url" "Download field"
                (map (fun field => ToolOption.mk (TapArchive.Field.name field)
                                                 (PyStr (TapArchive.Field.name field)))
                     (TapArchive.Table.fields table)))
           :: ToolWhen.Param
                (ToolParam.mk "access_url" "Url download field" "text"
                   (PyStr "Field containing the download url of the file"))
           :: map (fun field =>
                     ToolWhen.Param
                       (ToolParam.__init__ (TapArchive.Field.name field)
                                           (TapArchive.Field.name field)
                                           (TapArchive.Field.type field)
                                           (TapArchive.Field.description field)))
                  (TapArchive.Table.fields table)))
        archive_tables
    /\ Forall2 (fun table branch =>
                  length (ToolWhen.params branch)
                  = length (TapArchive.Table.fields table) + 2)
               archive_tables
               (QueryBuildersBlock.generate_builder_params_block archive_tables).
Proof.
  intros archive_tables.
  rewrite generate_builder_params_block_map. split.
  - apply map_ext. intros table. apply generate_builder_params_table_eq.
  - induction archive_tables as [| table rest IH]; cbn [map]; constructor; auto.
    rewrite generate_builder_params_table_eq.
    cbn [ToolWhen.params length]. rewrite length_map. lia.
Qed.

(** C6, as stated, fails on a table without fields: its sub-branch holds
    the selector and the access_url text parameter, two entries where the
    claim allows one. *)
Lemma params_block_extra_entry :
  QueryBuildersBlock.generate_builder_params_block
    [TapArchive.Table.mk "photometry" "table" []]
  = [ToolWhen.mk "photometry"
       [ToolWhen.Select (ToolSelect.mk "download_url" "Download field" []);
        ToolWhen.Param
          (ToolParam.mk "access_url" "Url download field" "text"
             (PyStr "Field containing the download url of the file"))]]
  /\ length [ToolWhen.Select (ToolSelect.mk "download_url" "Download field" []);
             ToolWhen.Param
               (ToolParam.mk "access_url" "Url download field" "text"
                  (PyStr "Field containing the download url of the file"))]
     <> length (TapArchive.Table.fields (TapArchive.Table.mk "photometry" "table" [])) + 1.
Proof. split; [reflexivity | cbn; lia]. Qed.

(** ** The type of a parameter descriptor *)

Lemma _is_type_valid_In (s : string) :
  ToolParam._is_type_valid s = true <-> In s ToolParam.allowed_type_list.
Proof.
  unfold ToolParam._is_type_valid.
  destruct (existsb (String.eqb s) ToolParam.allowed_type_list) eqn:E.
  - split; [intros _ | reflexivity].
    apply existsb_exists in E. destruct E as [x [Hin Hx]].
    apply String.eqb_eq in Hx. now subst x.
  - split; [discriminate | intros Hin].
    assert (existsb (String.eqb s) ToolParam.allowed_type_list = true) as E'.
    { apply existsb_exists. exists s. split; [exact Hin | apply String.eqb_refl]. }
    congruence.
Qed.

Lemma ToolParam_init_data_type (name label : string) (data_type help : pystr) :
  ToolParam.data_type (ToolParam.__init__ name label data_type help)
  = match data_type with
    | PyStr s => if ToolParam._is_type_valid s then s else "text"
    | PyNone => "text"
    end.
Proof.
  unfold ToolParam.__init__. cbn [ToolParam.data_type].
  destruct data_type as [| s]; [reflexivity |].
  destruct (String.eqb_spec s "") as [-> | Hs]; cbn [negb].
  - reflexivity.
  - destruct (ToolParam._is_type_valid s); reflexivity.
Qed.

Lemma ToolParam_init_allowed (name label : string) (data_type help : pystr) :
  In (ToolParam.data_type (ToolParam.__init__ name label data_type help))
     ToolParam.allowed_type_list.
Proof.
  rewrite ToolParam_init_data_type. destruct data_type as [| s].
  - cbn. auto.
  - destruct (ToolParam._is_type_valid s) eqn:E.
    + now apply _is_type_valid_In.
    + cbn. auto.
Qed.

(** C7.  For every field of every table given to the block, the parameter
    descriptor that the table's sub-branch holds for the field carries a
    type of the fixed list (int, text, float, select): the reported type
    when it is in the list, and text when it is outside the list or absent;
    the rendered parameter carries that type. *)
Theorem field_param_type_is_coerced :
  forall (archive_tables : list TapArchive.Table.t) (table : TapArchive.Table.t)
         (field : TapArchive.Field.t),
    In table archive_tables ->
    In field (TapArchive.Table.fields table) ->
    let p := ToolParam.__init__ (TapArchive.Field.name field)
                                (TapArchive.Field.name field)
                                (TapArchive.Field.type field)
                                (TapArchive.Field.description field) in
    (exists branch,
        In branch (QueryBuildersBlock.generate_builder_params_block archive_tables)
        /\ ToolWhen.value branch = TapArchive.Table.name table
        /\ In (ToolWhen.Param p) (ToolWhen.params branch))
    /\ In (ToolParam.data_type p) ToolParam.allowed_type_list
    /\ (forall s, TapArchive.Field.type field = PyStr s ->
                  In s ToolParam.allowed_type_list -> ToolParam.data_type p = s)
    /\ ((forall s, TapArchive.Field.type field = PyStr s ->
                   ~ In s ToolParam.allowed_type_list) ->
        ToolParam.data_type p = "text")
    /\ ToolParam.get_xml p
       = "<param name=" ++ dq ++ TapArchive.Field.name field ++ dq
           ++ " type=" ++ dq ++ ToolParam.data_type p ++ dq
           ++ " label=" ++ dq ++ TapArchive.Field.name field ++ dq
           ++ (if truthy (TapArchive.Field.description field)
               then " help=" ++ dq ++ fmt (TapArchive.Field.description field)
                      ++ dq ++ " />"
               else " />").
Proof.
  intros archive_tables table field Htable Hfield p.
  split; [| split; [| split; [| split]]].
  - exists (QueryBuildersBlock.generate_builder_params_table table).
    rewrite generate_builder_params_block_map. split; [now apply in_map |].
    rewrite generate_builder_params_table_eq. cbn [ToolWhen.value ToolWhen.params].
    split; [reflexivity |]. right. right.
    apply (in_map (fun field =>
                     ToolWhen.Param
                       (ToolParam.__init__ (TapArchive.Field.name field)
                                           (TapArchive.Field.name field)
                                           (TapArchive.Field.type field)
                                           (TapArchive.Field.description field)))).
    exact Hfield.
  - apply ToolParam_init_allowed.
  - intros s Hs Hin. subst p. rewrite ToolParam_init_data_type, Hs.
    apply _is_type_valid_In in Hin. now rewrite Hin.
  - intros Hout. subst p. rewrite ToolParam_init_data_type.
    destruct (TapArchive.Field.type field) as [| s] eqn:Ety; [reflexivity |].
    destruct (ToolParam._is_type_valid s) eqn:E; [| reflexivity].
    apply _is_type_valid_In in E. now destruct (Hout s eq_refl).
  - assert (Hne : (ToolParam.data_type p =? "") = false).
    { assert (Hin := ToolParam_init_allowed (TapArchive.Field.name field)
                       (TapArchive.Field.name field) (TapArchive.Field.type field)
                       (TapArchive.Field.description field)).
      fold p in Hin. cbv [ToolParam.allowed_type_list In] in Hin.
      destruct Hin as [H | [H | [H | [H | []]]]]; rewrite <- H; reflexivity. }
    unfold ToolParam.get_xml. rewrite Hne. cbn [negb andb].
    change (ToolParam.help p) with (TapArchive.Field.description field).
    change (ToolParam.name p) with (TapArchive.Field.name field).
    change (ToolParam.label p) with (TapArchive.Field.name field).
    destruct (truthy (TapArchive.Field.description field)); reflexivity.
Qed.

Lemma field_param_type_is_coerced_witness :
  In (TapArchive.Table.mk "photometry" "table"
        [TapArchive.Field.mk "payload" (PyStr "blob") PyNone PyNone])
     [TapArchive.Table.mk "photometry" "table"
        [TapArchive.Field.mk "payload" (PyStr "blob") PyNone PyNone]]
  /\ In (TapArchive.Field.mk "payload" (PyStr "blob") PyNone PyNone)
        [TapArchive.Field.mk "payload" (PyStr "blob") PyNone PyNone]
  /\ ToolParam.data_type (ToolParam.__init__ "payload" "payload" (PyStr "blob") PyNone)
     = "text".
Proof.
  split; [left; reflexivity | split; [left; reflexivity |]].
  apply (field_param_type_is_coerced
           [TapArchive.Table.mk "photometry" "table"
              [TapArchive.Field.mk "payload" (PyStr "blob") PyNone PyNone]]
           (TapArchive.Table.mk "photometry" "table"
              [TapArchive.Field.mk "payload" (PyStr "blob") PyNone PyNone])
           (TapArchive.Field.mk "payload" (PyStr "blob") PyNone PyNone)
           (or_introl eq_refl) (or_introl eq_refl)).
  intros s Hs. injection Hs as <-. cbn. intuition discriminate.
Defined.

(** ** The constructor *)

Lemma resolvedName_not_empty (title short : pystr) (u : string) :
  u <> "" ->
  exists n, resolvedName title short (PyStr u) = PyStr n /\ n <> "".
Proof.
  intros Hu. unfold resolvedName.
  destruct title as [| t]; cbn [is_empty].
  - destruct short as [| s]; cbn [is_empty]; [now exists u |].
    destruct (String.eqb_spec s ""); [now exists u | now exists s].
  - destruct (String.eqb_spec t ""); [| now exists t].
    destruct short as [| s]; cbn [is_empty]; [now exists u |].
    destruct (String.eqb_spec s ""); [now exists u | now exists s].
Qed.

Lemma _set_name_resolved (self : TapArchive.t) (url : pystr) :
  TapArchive.access_url self = Some url ->
  TapArchive._set_name self
  = Ok (TapArchive.set_name self
          (resolvedName (ArchiveObject.res_title (TapArchive.archive_object self))
                        (ArchiveObject.short_name (TapArchive.archive_object self))
                        url)).
Proof.
  intros Hurl. unfold TapArchive._set_name, resolvedName. cbv zeta.
  cbn [TapArchive.set_name TapArchive.archive_object TapArchive.access_url].
  rewrite Hurl.
  destruct (ArchiveObject.res_title (TapArchive.archive_object self)) as [| t];
    cbn [not_empty is_empty];
    [| destruct (t =? ""); cbn [negb]; [| reflexivity]];
    (destruct (ArchiveObject.short_name (TapArchive.archive_object self)) as [| s];
     cbn [not_empty is_empty]; [reflexivity |];
     destruct (s =? ""); reflexivity).
Qed.

Lemma next_item_world (st : ReadStep) (w : World) :
  net (snd (next_item st w)) = net w /\ reads (snd (next_item st w)) = reads w.
Proof.
  destruct st as [d table | d e]; unfold next_item, bind, tick, ret, raise;
    (destruct (alarm w) as [remaining |]; [destruct (remaining <=? d)%nat |]);
    cbn; auto.
Qed.

Lemma _set_tables_loop_world (steps : CatalogRead) :
  forall (tables : list TapArchive.Table.t) (w : World),
    net (snd (TapArchive._set_tables_loop steps tables w)) = net w
    /\ reads (snd (TapArchive._set_tables_loop steps tables w)) = reads w.
Proof.
  induction steps as [| st rest IH]; intros tables w; cbn [TapArchive._set_tables_loop].
  - cbn. auto.
  - destruct (next_item_world st w) as [Hn Hr].
    destruct (next_item st w) as [[table | e] w1]; cbn [snd] in *.
    + destruct (TapArchive._set_tables_fields (RemoteTable.columns table) []) as [fields | e].
      * destruct (IH (tables ++ [TapArchive.Table.mk (RemoteTable.name table)
                                   (RemoteTable.type table) fields])%list w1) as [Hn' Hr'].
        split; congruence.
      * cbn. auto.
    + cbn. auto.
Qed.

(** [_set_tables] returns whatever the remote does: the [except] clause of
    its body swallows every exception, the deadline's included. *)
Lemma _set_tables_returns (self : TapArchive.t) (s : TAPService.t) (w : World) :
  TapArchive.service self = Some s ->
  TapArchive._set_tables self w
  = (Ok (TapArchive.set_tables self
           (fst (fst (TapArchive._set_tables_loop
                        (net w (TAPService.baseurl s) (reads w)) []
                        (mkWorld (net w) (S (reads w)) (Some 5)))))),
     mkWorld (net w) (S (reads w)) None).
Proof.
  intros Hs.
  unfold TapArchive._set_tables, timeout, TapArchive._set_tables_body.
  rewrite Hs. unfold TAPService.tables, signal_alarm. cbn [net reads alarm].
  destruct (_set_tables_loop_world (net w (TAPService.baseurl s) (reads w)) []
              (mkWorld (net w) (S (reads w)) (Some 5))) as [Hn Hr].
  destruct (TapArchive._set_tables_loop (net w (TAPService.baseurl s) (reads w)) []
              (mkWorld (net w) (S (reads w)) (Some 5))) as [[tables e] w1].
  cbn [fst snd net reads] in *. now rewrite Hn, Hr.
Qed.

Lemma init_absent (o : ArchiveObject.t) (w : World) :
  url_absent o ->
  TapArchive.__init__ o w
  = (Ok (TapArchive.mk o false None None
           (match ArchiveObject.access_url o with
            | Ok v => Some v
            | Raised _ => None
            end) None None), w).
Proof.
  unfold url_absent, TapArchive.__init__, TapArchive._initialize, bind, ret.
  cbn [TapArchive.archive_object].
  destruct (ArchiveObject.access_url o) as [[| u] | e]; intros H; try reflexivity.
  cbn [is_empty] in H. now rewrite H.
Qed.

Lemma init_present (o : ArchiveObject.t) (u : string) (w : World) :
  ArchiveObject.access_url o = Ok (PyStr u) ->
  u <> "" ->
  exists n,
    resolvedName (ArchiveObject.res_title o) (ArchiveObject.short_name o) (PyStr u)
    = PyStr n
    /\ n <> ""
    /\ TapArchive.__init__ o w
       = (Ok (TapArchive.mk o true (Some (TAPService.mk u))
                (Some (fst (fst (TapArchive._set_tables_loop
                                   (net w u (reads w)) []
                                   (mkWorld (net w) (S (reads w)) (Some 5))))))
                (Some (PyStr u)) (Some (PyStr n)) (Some (MD5.hexdigest n))),
          mkWorld (net w) (S (reads w)) None).
Proof.
  intros Hurl Hu.
  destruct (resolvedName_not_empty (ArchiveObject.res_title o)
              (ArchiveObject.short_name o) u Hu) as [n [Hn Hne]].
  exists n. split; [exact Hn | split; [exact Hne |]].
  unfold TapArchive.__init__, TapArchive._initialize.
  cbn [TapArchive.archive_object]. rewrite Hurl.
  apply String.eqb_neq in Hu. rewrite Hu.
  unfold bind at 1. unfold try_except, bind, ret.
  rewrite (_set_tables_returns _ (TAPService.mk u)) by reflexivity.
  cbn [TAPService.baseurl]. unfold lift.
  rewrite (_set_name_resolved _ (PyStr u)) by reflexivity.
  cbn [TapArchive.set_initialized TapArchive.archive_object
       TapArchive.set_tables TapArchive._set_service TapArchive.set_service
       TapArchive.set_access_url].
  rewrite Hn. unfold TapArchive._set_hash.
  cbn [TapArchive.set_initialized TapArchive.set_tables TapArchive.set_name
       TapArchive._set_service TapArchive.set_service TapArchive.set_access_url
       TapArchive.set_hash
       TapArchive.archive_object TapArchive.initialized TapArchive.service
       TapArchive.tables TapArchive.access_url TapArchive.name TapArchive.hash
       truthy].
  apply String.eqb_neq in Hne. rewrite Hne.
  cbn [negb rbind TapArchive.set_initialized TapArchive.set_tables
       TapArchive.set_name TapArchive._set_service TapArchive.set_service
       TapArchive.set_access_url TapArchive.set_hash
       TapArchive.archive_object TapArchive.initialized TapArchive.service
       TapArchive.tables TapArchive.access_url TapArchive.name TapArchive.hash].
  reflexivity.
Qed.

(** C8.  [_set_name] follows the name-priority rule: on an archive whose
    access URL has been read, the name it assigns is the title when that is
    non-empty, otherwise the short name when that is non-empty, otherwise
    the access URL. *)
Theorem set_name_follows_priority :
  forall (self : TapArchive.t) (url : pystr),
    TapArchive.access_url self = Some url ->
    exists self',
      TapArchive._set_name self = Ok self'
      /\ TapArchive.name self'
         = Some (resolvedName
                   (ArchiveObject.res_title (TapArchive.archive_object self))
                   (ArchiveObject.short_name (TapArchive.archive_object self))
                   url)
      /\ (not_empty (ArchiveObject.res_title (TapArchive.archive_object self)) = true ->
          TapArchive.name self'
          = Some (ArchiveObject.res_title (TapArchive.archive_object self)))
      /\ (not_empty (ArchiveObject.res_title (TapArchive.archive_object self)) = false ->
          not_empty (ArchiveObject.short_name (TapArchive.archive_object self)) = true ->
          TapArchive.name self'
          = Some (ArchiveObject.short_name (TapArchive.archive_object self)))
      /\ (not_empty (ArchiveObject.res_title (TapArchive.archive_object self)) = false ->
          not_empty (ArchiveObject.short_name (TapArchive.archive_object self)) = false ->
          TapArchive.name self' = Some url).
Proof.
  intros self url Hurl. eexists. split; [exact (_set_name_resolved self url Hurl) |].
  cbn [TapArchive.name TapArchive.set_name]. unfold resolvedName.
  destruct (ArchiveObject.res_title (TapArchive.archive_object self)) as [| t];
    destruct (ArchiveObject.short_name (TapArchive.archive_object self)) as [| s];
    cbn [not_empty is_empty];
    try destruct (t =? ""); try destruct (s =? ""); cbn [negb];
    repeat split; intros; try reflexivity; try discriminate.
Qed.

Lemma set_name_follows_priority_witness :
  TapArchive.access_url
    (TapArchive.mk x_archive false None None (Some (PyStr "https://x/tap")) None None)
  = Some (PyStr "https://x/tap")
  /\ exists self',
      TapArchive._set_name
        (TapArchive.mk x_archive false None None (Some (PyStr "https://x/tap")) None None)
      = Ok self'
      /\ TapArchive.name self' = Some (PyStr "X Archive").
Proof.
  split; [reflexivity |].
  destruct (set_name_follows_priority
              (TapArchive.mk x_archive false None None
                             (Some (PyStr "https://x/tap")) None None)
              (PyStr "https://x/tap") eq_refl) as [self' [H [Hname _]]].
  exists self'. split; [exact H | exact Hname].
Defined.

(** C9.  When the access URL of the descriptor is empty or missing, the
    constructor returns an archive that is not initialized, has no service
    and no tables, and leaves the world as it found it: no catalog read is
    made and no alarm is armed. *)
Theorem absent_url_fails_without_network :
  forall (o : ArchiveObject.t) (w : World),
    url_absent o ->
    exists a,
      TapArchive.__init__ o w = (Ok a, w)
      /\ TapArchive.initialized a = false
      /\ TapArchive.service a = None
      /\ TapArchive.tables a = None.
Proof.
  intros o w H. eexists. split; [now apply init_absent |]. cbn. auto.
Qed.

Lemma absent_url_fails_without_network_witness :
  url_absent (NonIVOATapArchiveWrapper (PyStr ""))
  /\ exists a,
      TapArchive.__init__ (NonIVOATapArchiveWrapper (PyStr "")) example_world
      = (Ok a, example_world)
      /\ TapArchive.initialized a = false
      /\ TapArchive.service a = None
      /\ TapArchive.tables a = None.
Proof.
  split; [reflexivity |].
  apply (absent_url_fails_without_network
           (NonIVOATapArchiveWrapper (PyStr "")) example_world).
  reflexivity.
Defined.

(** ** Failures of the catalog fetch *)

(** Whatever the remote does, a descriptor with a non-empty access URL gets
    an initialized archive: its tables are those collected before the first
    exception, its name follows the priority rule and its hash is the MD5
    of the name. *)
Lemma present_url_is_always_ready :
  forall (o : ArchiveObject.t) (u : string) (w : World),
    ArchiveObject.access_url o = Ok (PyStr u) ->
    u <> "" ->
    exists a w',
      TapArchive.__init__ o w = (Ok a, w')
      /\ TapArchive.initialized a = true
      /\ TapArchive.tables a
         = Some (fst (fst (TapArchive._set_tables_loop
                             (net w u (reads w)) []
                             (mkWorld (net w) (S (reads w)) (Some 5))))).
Proof.
  intros o u w Hurl Hu.
  destruct (init_present o u w Hurl Hu) as [n [_ [_ H]]].
  do 2 eexists. split; [exact H |]. cbn. auto.
Qed.

Lemma present_url_is_always_ready_witness :
  ArchiveObject.access_url (descriptor "https://slow/tap")
  = Ok (PyStr "https://slow/tap")
  /\ "https://slow/tap" <> ""
  /\ exists a w',
      TapArchive.__init__ (descriptor "https://slow/tap") example_world = (Ok a, w')
      /\ TapArchive.initialized a = true
      /\ TapArchive.tables a = Some [photometry_table].
Proof.
  split; [reflexivity | split; [discriminate |]].
  destruct (present_url_is_always_ready (descriptor "https://slow/tap")
              "https://slow/tap" example_world eq_refl ltac:(discriminate))
    as [a [w' [H [Hi Ht]]]].
  exists a, w'. split; [exact H | split; [exact Hi |]].
  rewrite Ht. vm_compute. reflexivity.
Defined.

(** C1, on the code.  The service https://x/tap fails after its first
    table and https://slow/tap runs past the deadline of 5 seconds after
    its first table; both archives come out initialized, and both keep the
    table collected before the failure. *)
Theorem failed_fetch_yields_ready_archive :
  fst (TapArchive.__init__ x_archive example_world)
  = Ok x_tap_archive
  /\ fst (TapArchive.__init__ (descriptor "https://slow/tap") example_world)
     = Ok (TapArchive.mk (descriptor "https://slow/tap") true
             (Some (TAPService.mk "https://slow/tap"))
             (Some [photometry_table]) (Some (PyStr "https://slow/tap"))
             (Some (PyStr "https://slow/tap"))
             (Some "237f371ae76b42cafd1408faa2853be1")).
Proof. split; vm_compute; reflexivity. Qed.

(** ** Curation *)

(** C2, on the code.  Of eleven candidates that are all Ready and not
    compliant, the ten first are returned and the eleventh is never
    introspected; on an empty candidate list the loop asks for record 0 and
    raises. *)
Theorem curate_stops_after_ten :
  fst (get_non_ivoa_archives eleven_candidates example_world)
  = Ok (map empty_archive
          ["https://a0/tap"; "https://a1/tap"; "https://a2/tap"; "https://a3/tap";
           "https://a4/tap"; "https://a5/tap"; "https://a6/tap"; "https://a7/tap";
           "https://a8/tap"; "https://a9/tap"])
  /\ fst ((archive <- TapArchive.__init__ (descriptor "https://a10/tap") ;;
           is_ivoa <- TapArchive.is_ivoa archive ;;
           ret (archive, is_ivoa))
            (snd (get_non_ivoa_archives eleven_candidates example_world)))
     = Ok (empty_archive "https://a10/tap", false)
  /\ fst (get_non_ivoa_archives [] example_world) = Raised IndexError.
Proof. repeat split; vm_compute; reflexivity. Qed.

(** ** Name and hash of an archive *)

Lemma url_absent_or_present (o : ArchiveObject.t) :
  url_absent o \/ exists u, ArchiveObject.access_url o = Ok (PyStr u) /\ u <> "".
Proof.
  unfold url_absent. destruct (ArchiveObject.access_url o) as [[| u] | e]; auto.
  cbn [is_empty]. destruct (String.eqb_spec u ""); [auto | right; eauto].
Qed.

Lemma getters_of_named (o : ArchiveObject.t) (b : bool)
    (s : option TAPService.t) (tl : option (list TapArchive.Table.t))
    (au : option pystr) (n : string) :
  n <> "" ->
  TapArchive.get_name
    (TapArchive.mk o b s tl au (Some (PyStr n)) (Some (MD5.hexdigest n)))
  = Ok (PyStr n, TapArchive.mk o b s tl au (Some (PyStr n)) (Some (MD5.hexdigest n)))
  /\ TapArchive.get_hash
       (TapArchive.mk o b s tl au (Some (PyStr n)) (Some (MD5.hexdigest n)))
     = Ok (MD5.hexdigest n,
           TapArchive.mk o b s tl au (Some (PyStr n)) (Some (MD5.hexdigest n))).
Proof.
  intros Hn. apply String.eqb_neq in Hn.
  unfold TapArchive.get_name, TapArchive.get_hash, TapArchive._set_hash.
  cbn [TapArchive.name TapArchive.hash truthy]. rewrite Hn. cbn [negb rbind].
  split; [reflexivity |].
  destruct (MD5.hexdigest n =? ""); cbn [rbind TapArchive.name]; reflexivity.
Qed.

(** What the constructor leaves in a Ready archive. *)
Lemma Ready_getters (a : TapArchive.t) :
  Ready a ->
  exists u n,
    ArchiveObject.access_url (TapArchive.archive_object a) = Ok (PyStr u)
    /\ u <> ""
    /\ TapArchive.service a = Some (TAPService.mk u)
    /\ (exists tl, TapArchive.tables a = Some tl)
    /\ resolvedName (ArchiveObject.res_title (TapArchive.archive_object a))
                    (ArchiveObject.short_name (TapArchive.archive_object a))
                    (PyStr u) = PyStr n
    /\ TapArchive.name a = Some (PyStr n)
    /\ TapArchive.hash a = Some (MD5.hexdigest n)
    /\ TapArchive.get_name a = Ok (PyStr n, a)
    /\ TapArchive.get_hash a = Ok (MD5.hexdigest n, a).
Proof.
  intros [o [w [w' [H Hi]]]].
  destruct (url_absent_or_present o) as [Habs | [u [Hurl Hu]]].
  - rewrite (init_absent o w Habs) in H. injection H as <- _. discriminate Hi.
  - destruct (init_present o u w Hurl Hu) as [n [Hn [Hne H']]].
    rewrite H' in H. injection H as <- _.
    exists u, n. cbn [TapArchive.archive_object TapArchive.service TapArchive.tables].
    destruct (getters_of_named o true (Some (TAPService.mk u))
                (Some (fst (fst (TapArchive._set_tables_loop (net w u (reads w)) []
                                   (mkWorld (net w) (S (reads w)) (Some 5))))))
                (Some (PyStr u)) n Hne) as [Hname Hhash].
    repeat split; eauto.
Qed.

(** C3, as amended.  When the constructor returns a Ready archive, its
    name is the one the name-priority rule gives for the descriptor, its
    hash is the MD5 of that name, and [get_name] and [get_hash] return
    them; when it returns an archive that is not initialized, neither name
    nor hash has been computed. *)
Theorem ready_archive_name_and_hash :
  forall (o : ArchiveObject.t) (w : World) (a : TapArchive.t) (w' : World),
    TapArchive.__init__ o w = (Ok a, w') ->
    (TapArchive.initialized a = true ->
     exists u n,
       ArchiveObject.access_url o = Ok (PyStr u)
       /\ resolvedName (ArchiveObject.res_title o) (ArchiveObject.short_name o)
                       (PyStr u) = PyStr n
       /\ TapArchive.get_name a = Ok (PyStr n, a)
       /\ TapArchive.get_hash a = Ok (MD5.hexdigest n, a))
    /\ (TapArchive.initialized a = false ->
        TapArchive.name a = None /\ TapArchive.hash a = None).
Proof.
  intros o w a w' H.
  destruct (url_absent_or_present o) as [Habs | [u [Hurl Hu]]].
  - rewrite (init_absent o w Habs) in H. injection H as <- _.
    split; [discriminate | intros _; cbn; auto].
  - destruct (init_present o u w Hurl Hu) as [n [Hn [Hne H']]].
    rewrite H' in H. injection H as <- _.
    split; [intros _ | discriminate].
    exists u, n.
    destruct (getters_of_named o true (Some (TAPService.mk u))
                (Some (fst (fst (TapArchive._set_tables_loop (net w u (reads w)) []
                                   (mkWorld (net w) (S (reads w)) (Some 5))))))
                (Some (PyStr u)) n Hne) as [Hname Hhash].
    auto.
Qed.

Lemma ready_archive_name_and_hash_witness :
  TapArchive.__init__ x_archive example_world
  = (Ok x_tap_archive, mkWorld example_net 1 None)
  /\ exists u n,
      ArchiveObject.access_url x_archive = Ok (PyStr u)
      /\ resolvedName (ArchiveObject.res_title x_archive)
                      (ArchiveObject.short_name x_archive) (PyStr u) = PyStr n
      /\ TapArchive.get_name x_tap_archive = Ok (PyStr n, x_tap_archive)
      /\ TapArchive.get_hash x_tap_archive = Ok (MD5.hexdigest n, x_tap_archive).
Proof.
  assert (H : TapArchive.__init__ x_archive example_world
              = (Ok x_tap_archive, mkWorld example_net 1 None))
    by (vm_compute; reflexivity).
  split; [exact H |].
  exact (proj1 (ready_archive_name_and_hash x_archive example_world _ _ H) eq_refl).
Defined.

(** C3, as stated, fails on a descriptor with a title and an empty access
    URL: the archive is not initialized, carries neither name nor hash, and
    both getters raise. *)
Lemma failed_archive_has_no_name :
  TapArchive.__init__ empty_url example_world
  = (Ok empty_url_archive, example_world)
  /\ TapArchive.initialized empty_url_archive = false
  /\ TapArchive.name empty_url_archive = None
  /\ TapArchive.hash empty_url_archive = None
  /\ TapArchive.get_name empty_url_archive = Raised AttributeError
  /\ TapArchive.get_hash empty_url_archive = Raised AttributeError.
Proof. repeat split. Qed.

(** ** The compliance check *)

Lemma next_item_no_alarm (st : ReadStep) (w : World) :
  alarm w = None ->
  next_item st w
  = (match st with
     | Yield _ table => Ok table
     | Fault _ e => Raised e
     end, w).
Proof.
  intros Ha. destruct st as [d table | d e];
    unfold next_item, bind, tick, ret, raise; rewrite Ha; reflexivity.
Qed.

(** Without a pending alarm the loop of the check finds the reference
    table among the tables the read delivers before its first failure. *)
Lemma _is_ivoa_compliant_loop_no_alarm (steps : CatalogRead) (w : World) :
  alarm w = None ->
  TapArchive._is_ivoa_compliant_loop steps w
  = (existsb (fun table => is_reference (RemoteTable.name table)) (yielded steps), w).
Proof.
  intros Ha. induction steps as [| st rest IH]; [reflexivity |].
  cbn [TapArchive._is_ivoa_compliant_loop]. rewrite (next_item_no_alarm st w Ha).
  destruct st as [d table | d e]; [| reflexivity].
  cbn [yielded existsb]. unfold is_reference at 1.
  destruct (lower (RemoteTable.name table) =? TapArchive.OBSCORE_TABLE);
    [reflexivity | exact IH].
Qed.

Lemma is_ivoa_no_alarm (a : TapArchive.t) (u : string) (w : World) :
  TapArchive.service a = Some (TAPService.mk u) ->
  alarm w = None ->
  TapArchive.is_ivoa a w
  = (Ok (existsb (fun table => is_reference (RemoteTable.name table))
                 (yielded (net w u (reads w)))),
     mkWorld (net w) (S (reads w)) None).
Proof.
  intros Hs Ha. unfold TapArchive.is_ivoa, TapArchive._is_ivoa_compliant.
  rewrite Hs. unfold TAPService.tables. cbn [TAPService.baseurl]. rewrite Ha.
  now rewrite _is_ivoa_compliant_loop_no_alarm.
Qed.

Lemma existsb_map {A B : Type} (f : A -> B) (p : B -> bool) (l : list A) :
  existsb (fun x => p (f x)) l = existsb p (map f l).
Proof. induction l as [| x l IH]; cbn; [reflexivity | now rewrite IH]. Qed.

Lemma yielded_app_fault (pre rest : CatalogRead) (d : nat) (e : Exn) :
  faultless pre = true ->
  yielded (pre ++ Fault d e :: rest)%list = yielded pre.
Proof.
  induction pre as [| st pre IH]; [reflexivity |].
  destruct st as [d' table | d' e']; cbn; [| discriminate].
  intros H. now rewrite IH.
Qed.

(** ** The curation loop *)

Lemma get_non_ivoa_archives_loop_step (i : nat) (rest : list nat)
    (archive_list : list ArchiveObject.t) (acc : list TapArchive.t) (w : World) :
  get_non_ivoa_archives_loop (i :: rest) archive_list acc w
  = match nth_error archive_list i with
    | None => (Raised IndexError, w)
    | Some archive_record =>
        match TapArchive.__init__ archive_record w with
        | (Raised e, w1) => (Raised e, w1)
        | (Ok archive, w1) =>
            if TapArchive.initialized archive then
              match TapArchive.is_ivoa archive w1 with
              | (Raised e, w2) => (Raised e, w2)
              | (Ok is_ivoa, w2) =>
                  get_non_ivoa_archives_loop rest archive_list
                    (if is_ivoa then acc else (acc ++ [archive])%list) w2
              end
            else get_non_ivoa_archives_loop rest archive_list acc w1
        end
    end.
Proof.
  cbn [get_non_ivoa_archives_loop]. unfold bind at 1. unfold getrecord.
  destruct (nth_error archive_list i) as [archive_record |]; [| reflexivity].
  unfold ret at 1. unfold bind at 1.
  destruct (TapArchive.__init__ archive_record w) as [[archive | e] w1];
    [| reflexivity].
  destruct (TapArchive.initialized archive); [| reflexivity].
  unfold bind at 1.
  destruct (TapArchive.is_ivoa archive w1) as [[[ | ] | e] w2]; reflexivity.
Qed.

(** The loop only appends to the list it is given. *)
Lemma get_non_ivoa_archives_loop_extends (indices : list nat)
    (archive_list : list ArchiveObject.t) :
  forall (acc : list TapArchive.t) (w : World) (l : list TapArchive.t) (w' : World),
    get_non_ivoa_archives_loop indices archive_list acc w = (Ok l, w') ->
    exists ext, l = (acc ++ ext)%list.
Proof.
  induction indices as [| i rest IH]; intros acc w l w' H.
  - cbn in H. injection H as <- _. exists []. now rewrite app_nil_r.
  - rewrite get_non_ivoa_archives_loop_step in H.
    destruct (nth_error archive_list i) as [archive_record |]; [| discriminate].
    destruct (TapArchive.__init__ archive_record w) as [[archive | e] w1];
      [| discriminate].
    destruct (TapArchive.initialized archive); [| now apply IH in H].
    destruct (TapArchive.is_ivoa archive w1) as [[[ | ] | e] w2];
      [now apply IH in H | | discriminate].
    apply IH in H. destruct H as [ext ->].
    exists (archive :: ext). now rewrite <- app_assoc.
Qed.

(** ** The root selector *)

Lemma generate_builder_selection_loop_ready (archives : list TapArchive.t) :
  forall options : list ToolOption.t,
    Forall Ready archives ->
    exists added,
      QueryBuildersBlock.generate_builder_selection_loop archives options
      = Ok ((options ++ added)%list, archives)
      /\ Forall2 (fun archive option =>
                    TapArchive.hash archive = Some (ToolOption.value option)
                    /\ TapArchive.name archive = Some (ToolOption.name option))
                 archives added.
Proof.
  induction archives as [| archive rest IH]; intros options Hall.
  - exists []. cbn. rewrite app_nil_r. split; [reflexivity | constructor].
  - inversion Hall as [| ? ? Hready Hrest]; subst.
    destruct (Ready_getters archive Hready)
      as [u [n [_ [_ [_ [_ [_ [Hname [Hhash [Hgn Hgh]]]]]]]]]].
    destruct (IH (options ++ [ToolOption.mk (MD5.hexdigest n) (PyStr n)])%list Hrest)
      as [added [Hloop Hfor]].
    exists (ToolOption.mk (MD5.hexdigest n) (PyStr n) :: added).
    cbn [QueryBuildersBlock.generate_builder_selection_loop].
    rewrite Hgh. cbn [rbind]. rewrite Hgn. cbn [rbind]. rewrite Hloop. cbn [rbind].
    rewrite <- app_assoc. split; [reflexivity |].
    constructor; [| exact Hfor]. cbn. auto.
Qed.

Lemma generate_builders_loop_ready (archives : list TapArchive.t) :
  forall builders_block : string,
    Forall Ready archives ->
    exists xml,
      QueryBuildersBlock.generate_builders_loop archives builders_block
      = Ok (xml, archives)
      /\ (archives = [] -> xml = builders_block).
Proof.
  induction archives as [| archive rest IH]; intros builders_block Hall.
  - exists builders_block. split; reflexivity.
  - inversion Hall as [| ? ? Hready Hrest]; subst.
    destruct (Ready_getters archive Hready)
      as [u [n [_ [_ [_ [[tl Htl] [_ [_ [_ [_ Hgh]]]]]]]]]].
    cbn [QueryBuildersBlock.generate_builders_loop]. rewrite Htl, Hgh. cbn [rbind].
    match goal with
    | |- context [QueryBuildersBlock.generate_builders_loop rest ?b] =>
        destruct (IH b Hrest) as [xml [Hloop _]]
    end.
    exists xml. rewrite Hloop. cbn [rbind]. split; [reflexivity | discriminate].
Qed.

(** C5.  For every list of Ready archives, [generate_block] succeeds and
    leaves a root selector named query_type whose options are the three
    fixed options followed by exactly one option per archive, in list
    order, whose value is the hash of the archive and whose label is its
    name; for the empty list the selector holds the three fixed options
    only, the block of nested branches is empty, and the document is the
    rendering of that selector alone. *)
Theorem root_selector_options :
  forall archives : list TapArchive.t,
    Forall Ready archives ->
    exists options builders,
      QueryBuildersBlock.generate_block (QueryBuildersBlock.__init__ archives)
      = Ok (QueryBuildersBlock.mk archives
              (Some (ToolSelect.mk "query_type" "ADQL Query Selection"
                       (fixed_options ++ options)%list))
              builders)
      /\ Forall2 (fun archive option =>
                    TapArchive.hash archive = Some (ToolOption.value option)
                    /\ TapArchive.name archive = Some (ToolOption.name option))
                 archives options
      /\ (archives = [] ->
          options = [] /\ builders = ""
          /\ QueryBuildersBlock.get_xml
               (QueryBuildersBlock.mk archives
                  (Some (ToolSelect.mk "query_type" "ADQL Query Selection"
                           (fixed_options ++ options)%list))
                  builders)
             = Ok ("<param name=" ++ dq ++ "query_type" ++ dq ++ " type=" ++ dq
                   ++ "select" ++ dq ++ " label=" ++ dq ++ "ADQL Query Selection"
                   ++ dq ++ ">" ++ nl
                   ++ tab ++ "<option value=" ++ dq ++ "none" ++ dq
                   ++ ">No specific query (first n files from archive)</option>" ++ nl
                   ++ tab ++ "<option value=" ++ dq ++ "obscore_query" ++ dq
                   ++ ">IVOA obscore table query builder</option>" ++ nl
                   ++ tab ++ "<option value=" ++ dq ++ "raw_query" ++ dq
                   ++ ">Raw ADQL query builder</option>" ++ nl
                   ++ "</param>" ++ nl)).
Proof.
  intros archives Hall.
  destruct (generate_builder_selection_loop_ready archives fixed_options Hall)
    as [options [Hsel Hfor]].
  destruct (generate_builders_loop_ready archives "" Hall) as [builders [Hb Hnil]].
  exists options, builders. split; [| split; [exact Hfor |]].
  - unfold QueryBuildersBlock.generate_block,
      QueryBuildersBlock.generate_builder_selection_block,
      QueryBuildersBlock.generate_builders_block, QueryBuildersBlock.__init__.
    cbn [QueryBuildersBlock.archive_list QueryBuildersBlock.builder_selection_block
         QueryBuildersBlock.builders_block app].
    change [ToolOption.mk QueryBuildersBlock.GENERIC_QUERY_NAME
              (PyStr QueryBuildersBlock.GENERIC_QUERY_LABEL);
            ToolOption.mk QueryBuildersBlock.IVOA_BUILDER_NAME
              (PyStr QueryBuildersBlock.IVOA_BUILDER_LABEL);
            ToolOption.mk QueryBuildersBlock.RAW_QUERY_NAME
              (PyStr QueryBuildersBlock.RAW_QUERY_LABEL)] with fixed_options.
    rewrite Hsel. cbn [rbind QueryBuildersBlock.archive_list
                       QueryBuildersBlock.builder_selection_block
                       QueryBuildersBlock.builders_block].
    rewrite Hb. reflexivity.
  - intros ->. inversion Hfor; subst. rewrite (Hnil eq_refl).
    repeat split. 
Qed.

Lemma root_selector_options_witness :
  Forall Ready [x_tap_archive]
  /\ exists options builders,
      QueryBuildersBlock.generate_block (QueryBuildersBlock.__init__ [x_tap_archive])
      = Ok (QueryBuildersBlock.mk [x_tap_archive]
              (Some (ToolSelect.mk "query_type" "ADQL Query Selection"
                       (fixed_options ++ options)%list))
              builders)
      /\ Forall2 (fun archive option =>
                    TapArchive.hash archive = Some (ToolOption.value option)
                    /\ TapArchive.name archive = Some (ToolOption.name option))
                 [x_tap_archive] options.
Proof.
  assert (Hready : Forall Ready [x_tap_archive]).
  { constructor; [| constructor].
    exists x_archive, example_world, (mkWorld example_net 1 None).
    split; vm_compute; reflexivity. }
  split; [exact Hready |].
  destruct (root_selector_options [x_tap_archive] Hready)
    as [options [builders [H [Hfor _]]]].
  exists options, builders. split; [exact H | exact Hfor].
Defined.

(** The block built for the archive of the examples, as an evaluation. *)
Example root_selector_of_x_tap_archive :
  rbind (QueryBuildersBlock.generate_block (QueryBuildersBlock.__init__ [x_tap_archive]))
        (fun qbb => Ok (QueryBuildersBlock.archive_list qbb,
                        QueryBuildersBlock.builder_selection_block qbb))
  = Ok ([x_tap_archive],
        Some (ToolSelect.mk "query_type" "ADQL Query Selection"
                (fixed_options
                   ++ [ToolOption.mk "2bd70c567410bd15aba2eeb2b8edf5ac"
                                     (PyStr "X Archive")])%list)).
Proof. vm_compute. reflexivity. Qed.

(** ** Curation of the first ten candidates *)

Lemma curate_step (candidate : ArchiveObject.t) (rest : list ArchiveObject.t)
    (w : World) :
  curate (candidate :: rest) w
  = match TapArchive.__init__ candidate w with
    | (Raised e, w1) => (Raised e, w1)
    | (Ok archive, w1) =>
        if TapArchive.initialized archive then
          match TapArchive.is_ivoa archive w1 with
          | (Raised e, w2) => (Raised e, w2)
          | (Ok compliant, w2) =>
              match curate rest w2 with
              | (Raised e, w3) => (Raised e, w3)
              | (Ok curated, w3) =>
                  (Ok (if compliant then curated else archive :: curated), w3)
              end
          end
        else curate rest w1
    end.
Proof.
  cbn [curate]. unfold bind, ret.
  destruct (TapArchive.__init__ candidate w) as [[archive | e] w1]; [| reflexivity].
  destruct (TapArchive.initialized archive).
  - destruct (TapArchive.is_ivoa archive w1) as [[[ | ] | e] w2]; try reflexivity;
      destruct (curate rest w2) as [[curated | e] w3]; reflexivity.
  - destruct (curate rest w1) as [[curated | e] w3]; reflexivity.
Qed.

Lemma get_non_ivoa_archives_loop_curate (candidates : list ArchiveObject.t) :
  forall (before after : list ArchiveObject.t) (acc : list TapArchive.t) (w : World),
    get_non_ivoa_archives_loop (seq (length before) (length candidates))
                               (before ++ candidates ++ after)%list acc w
    = (match fst (curate candidates w) with
       | Ok curated => Ok (acc ++ curated)%list
       | Raised e => Raised e
       end, snd (curate candidates w)).
Proof.
  induction candidates as [| candidate rest IH]; intros before after acc w.
  - cbn. now rewrite app_nil_r.
  - cbn [length seq]. rewrite get_non_ivoa_archives_loop_step, curate_step.
    rewrite nth_error_app2, Nat.sub_diag by apply Nat.le_refl.
    cbn [app nth_error].
    assert (E : (before ++ candidate :: rest ++ after
                 = (before ++ [candidate]) ++ rest ++ after)%list)
      by now rewrite <- app_assoc.
    assert (L : S (length before) = length (before ++ [candidate])%list)
      by (rewrite length_app; cbn; lia).
    rewrite E, L.
    destruct (TapArchive.__init__ candidate w) as [[archive | e] w1];
      [| reflexivity].
    destruct (TapArchive.initialized archive); [| apply IH].
    destruct (TapArchive.is_ivoa archive w1) as [[compliant | e] w2];
      [| reflexivity].
    rewrite IH.
    destruct (curate rest w2) as [[curated | e] w3]; [| reflexivity].
    cbn [fst snd].
    destruct compliant; [reflexivity | now rewrite <- app_assoc].
Qed.

(** When the registry answers with at least ten records,
    [get_non_ivoa_archives] is the curation of the first ten: each of them
    is introspected in turn, and those that are Ready and not compliant are
    returned in the order of the records. *)
Theorem get_non_ivoa_archives_first_ten :
  forall (archive_list : list ArchiveObject.t) (w : World),
    10 <= length archive_list ->
    get_non_ivoa_archives archive_list w = curate (firstn 10 archive_list) w.
Proof.
  intros archive_list w Hlen.
  assert (H := get_non_ivoa_archives_loop_curate
                 (firstn 10 archive_list) [] (skipn 10 archive_list) [] w).
  rewrite firstn_skipn, length_firstn, Nat.min_l in H by exact Hlen.
  unfold get_non_ivoa_archives. cbn [length app] in H. rewrite H.
  destruct (curate (firstn 10 archive_list) w) as [[curated | e] w']; reflexivity.
Qed.

Lemma get_non_ivoa_archives_first_ten_witness :
  10 <= length eleven_candidates
  /\ get_non_ivoa_archives eleven_candidates example_world
     = curate (firstn 10 eleven_candidates) example_world.
Proof.
  split; [cbn; lia |].
  apply (get_non_ivoa_archives_first_ten eleven_candidates example_world).
  cbn. lia.
Defined.

(** ** What a catalog read leaves in the archive *)

Lemma _set_tables_fields_typed (columns : list RemoteColumn.t) :
  forall fields : list TapArchive.Field.t,
    forallb (fun column => match RemoteColumn.datatype column with
                           | Some _ => true
                           | None => false
                           end) columns = true ->
    TapArchive._set_tables_fields columns fields
    = Ok (fields ++ map normalize_column columns)%list.
Proof.
  induction columns as [| column rest IH]; intros fields H; cbn in *.
  - now rewrite app_nil_r.
  - unfold normalize_column at 1.
    destruct (RemoteColumn.datatype column) as [content |]; [| discriminate].
    rewrite IH by exact H. now rewrite <- app_assoc.
Qed.

Lemma _set_tables_fields_untyped (columns : list RemoteColumn.t) :
  forall fields : list TapArchive.Field.t,
    forallb (fun column => match RemoteColumn.datatype column with
                           | Some _ => true
                           | None => false
                           end) columns = false ->
    TapArchive._set_tables_fields columns fields = Raised AttributeError.
Proof.
  induction columns as [| column rest IH]; intros fields H; cbn in *.
  - discriminate.
  - destruct (RemoteColumn.datatype column) as [content |]; [| reflexivity].
    now apply IH.
Qed.

(** A prefix of the read that neither fails, nor reports a column without
    datatype, and is over before the alarm strikes, is collected whole. *)
Lemma _set_tables_loop_prefix (pre : CatalogRead) :
  forall (suffix : CatalogRead) (tables : list TapArchive.Table.t)
         (fetch : string -> nat -> CatalogRead) (k remaining : nat),
    faultless pre = true ->
    forallb well_typed (yielded pre) = true ->
    total_delay pre < remaining ->
    TapArchive._set_tables_loop (pre ++ suffix)%list tables
                                (mkWorld fetch k (Some remaining))
    = TapArchive._set_tables_loop suffix
        (tables ++ map normalize (yielded pre))%list
        (mkWorld fetch k (Some (remaining - total_delay pre))).
Proof.
  induction pre as [| st pre IH]; intros suffix tables fetch k remaining Hf Ht Hd.
  - cbn. now rewrite app_nil_r, Nat.sub_0_r.
  - destruct st as [d table | d e]; [| discriminate].
    cbn [faultless forallb yielded total_delay fold_right andb] in Hf, Ht, Hd.
    apply andb_prop in Ht. destruct Ht as [Htable Ht]. fold (total_delay pre) in Hd.
    cbn [app TapArchive._set_tables_loop next_item].
    unfold bind, tick, ret. cbn [alarm net reads].
    assert (Hlt : (remaining <=? d)%nat = false) by (apply Nat.leb_gt; lia).
    rewrite Hlt. rewrite (_set_tables_fields_typed _ [] Htable). cbn [app].
    rewrite (IH suffix _ fetch k (remaining - d) Hf Ht) by lia.
    cbn [yielded map total_delay fold_right]. fold (total_delay pre).
    rewrite <- app_assoc. cbn [app]. unfold normalize at 2.
    now rewrite Nat.sub_add_distr.
Qed.

Lemma _set_tables_loop_stops (st : ReadStep) (rest : CatalogRead)
    (tables : list TapArchive.Table.t) (fetch : string -> nat -> CatalogRead)
    (k remaining : nat) :
  stops remaining st ->
  fst (fst (TapArchive._set_tables_loop (st :: rest) tables
              (mkWorld fetch k (Some remaining))))
  = tables.
Proof.
  intros H. cbn [TapArchive._set_tables_loop].
  destruct st as [d table | d e]; unfold next_item, bind, tick, ret, raise;
    cbn [alarm net reads]; destruct (remaining <=? d)%nat eqn:Hlt; try reflexivity.
  destruct H as [H | H]; [apply Nat.leb_gt in Hlt; lia |].
  unfold well_typed in H. now rewrite (_set_tables_fields_untyped _ [] H).
Qed.

(** When the read of the service is over before the alarm of five seconds
    strikes (it takes less than five seconds), without a failure and with
    a datatype for every column, the archive's table list is the catalog,
    normalized table by table and column by column in the order of the
    read. *)
Theorem complete_catalog_is_normalized :
  forall (o : ArchiveObject.t) (u : string) (w : World),
    ArchiveObject.access_url o = Ok (PyStr u) ->
    u <> "" ->
    faultless (net w u (reads w)) = true ->
    forallb well_typed (yielded (net w u (reads w))) = true ->
    total_delay (net w u (reads w)) < 5 ->
    exists a w',
      TapArchive.__init__ o w = (Ok a, w')
      /\ TapArchive.initialized a = true
      /\ TapArchive.tables a = Some (map normalize (yielded (net w u (reads w)))).
Proof.
  intros o u w Hurl Hu Hf Ht Hd.
  destruct (init_present o u w Hurl Hu) as [n [_ [_ H]]].
  do 2 eexists. split; [exact H |]. cbn [TapArchive.initialized TapArchive.tables].
  split; [reflexivity |]. f_equal.
  rewrite <- (app_nil_r (net w u (reads w))) at 1.
  now rewrite (_set_tables_loop_prefix _ [] [] _ _ 5 Hf Ht Hd).
Qed.

Lemma complete_catalog_is_normalized_witness :
  ArchiveObject.access_url (descriptor "https://ok/tap") = Ok (PyStr "https://ok/tap")
  /\ "https://ok/tap" <> ""
  /\ faultless (example_net "https://ok/tap" 0) = true
  /\ forallb well_typed (yielded (example_net "https://ok/tap" 0)) = true
  /\ total_delay (example_net "https://ok/tap" 0) < 5
  /\ exists a w',
      TapArchive.__init__ (descriptor "https://ok/tap") example_world = (Ok a, w')
      /\ TapArchive.initialized a = true
      /\ TapArchive.tables a = Some [photometry_table; obscore_table].
Proof.
  split; [reflexivity | split; [discriminate |]].
  split; [reflexivity | split; [reflexivity | split; [cbn; lia |]]].
  exact (complete_catalog_is_normalized (descriptor "https://ok/tap")
           "https://ok/tap" example_world eq_refl ltac:(discriminate)
           eq_refl eq_refl ltac:(cbn; lia)).
Defined.

(** The collection of tables ends at the first step of the read that is
    not over before the alarm of five seconds strikes, or fails, or
    delivers a table with a column that reports no datatype: the archive
    is initialized all the same, its table list holds the tables delivered
    before that step, normalized, and nothing of that step or after it. *)
Theorem collection_ends_at_first_stop :
  forall (o : ArchiveObject.t) (u : string) (w : World)
         (pre : CatalogRead) (st : ReadStep) (rest : CatalogRead),
    ArchiveObject.access_url o = Ok (PyStr u) ->
    u <> "" ->
    net w u (reads w) = (pre ++ st :: rest)%list ->
    faultless pre = true ->
    forallb well_typed (yielded pre) = true ->
    total_delay pre < 5 ->
    stops (5 - total_delay pre) st ->
    exists a w',
      TapArchive.__init__ o w = (Ok a, w')
      /\ TapArchive.initialized a = true
      /\ TapArchive.tables a = Some (map normalize (yielded pre)).
Proof.
  intros o u w pre st rest Hurl Hu Hread Hf Ht Hd Hstop.
  destruct (init_present o u w Hurl Hu) as [n [_ [_ H]]].
  do 2 eexists. split; [exact H |]. cbn [TapArchive.initialized TapArchive.tables].
  split; [reflexivity |]. f_equal. rewrite Hread.
  rewrite (_set_tables_loop_prefix _ _ [] _ _ 5 Hf Ht Hd).
  now rewrite _set_tables_loop_stops.
Qed.

Lemma collection_ends_at_first_stop_witness :
  ArchiveObject.access_url (descriptor "https://slow/tap")
  = Ok (PyStr "https://slow/tap")
  /\ "https://slow/tap" <> ""
  /\ example_net "https://slow/tap" 0 = ([Yield 2 photometry] ++ Yield 4 obscore :: [])%list
  /\ stops (5 - total_delay [Yield 2 photometry]) (Yield 4 obscore)
  /\ exists a w',
      TapArchive.__init__ (descriptor "https://slow/tap") example_world = (Ok a, w')
      /\ TapArchive.initialized a = true
      /\ TapArchive.tables a = Some [photometry_table].
Proof.
  assert (Hstop : stops (5 - total_delay [Yield 2 photometry]) (Yield 4 obscore))
    by (left; cbn; lia).
  split; [reflexivity | split; [discriminate | split; [reflexivity |]]].
  split; [exact Hstop |].
  exact (collection_ends_at_first_stop (descriptor "https://slow/tap")
           "https://slow/tap" example_world [Yield 2 photometry] (Yield 4 obscore) []
           eq_refl ltac:(discriminate) eq_refl eq_refl eq_refl
           ltac:(cbn; lia) Hstop).
Defined.

(** ** What curation does to the world and what it returns *)

Lemma present_false_absent (o : ArchiveObject.t) :
  url_absent o -> present o = false.
Proof.
  unfold url_absent, present.
  destruct (ArchiveObject.access_url o) as [[| u] | e]; try reflexivity.
  cbn [is_empty]. now intros ->.
Qed.

Lemma present_true (o : ArchiveObject.t) (u : string) :
  ArchiveObject.access_url o = Ok (PyStr u) -> u <> "" -> present o = true.
Proof.
  intros Hurl Hu. unfold present. rewrite Hurl.
  apply String.eqb_neq in Hu. now rewrite Hu.
Qed.

(** The curation of a list of candidates never raises, whatever the
    services do; it costs two catalog reads per candidate with an access
    URL; the archives it returns are Ready, and their records are
    candidates, in candidate order. *)
Lemma curate_outcome (candidates : list ArchiveObject.t) :
  forall w : World,
    exists l,
      fst (curate candidates w) = Ok l
      /\ net (snd (curate candidates w)) = net w
      /\ reads (snd (curate candidates w))
         = reads w + 2 * length (filter present candidates)
      /\ Forall Ready l
      /\ subsequence (map TapArchive.archive_object l) candidates.
Proof.
  induction candidates as [| candidate rest IH]; intros w.
  - exists []. cbn. repeat split; auto; constructor.
  - rewrite curate_step. cbn [filter].
    destruct (url_absent_or_present candidate) as [Habs | [u [Hurl Hu]]].
    + rewrite (init_absent candidate w Habs), (present_false_absent _ Habs).
      cbn [TapArchive.initialized].
      destruct (IH w) as [l [Hl [Hn [Hr [Hready Hsub]]]]].
      exists l. repeat split; auto. now constructor.
    + destruct (init_present candidate u w Hurl Hu) as [n [_ [_ Hinit]]].
      rewrite Hinit, (present_true _ u Hurl Hu). cbn [TapArchive.initialized length].
      match goal with
      | |- context [TapArchive.is_ivoa ?x ?y] => set (a := x); set (w1 := y)
      end.
      rewrite (is_ivoa_no_alarm a u w1 eq_refl eq_refl).
      match goal with
      | |- context [curate rest ?y] => set (w2 := y)
      end.
      destruct (IH w2) as [l [Hl [Hn [Hr [Hready Hsub]]]]].
      destruct (curate rest w2) as [[curated | e] w3]; cbn [fst snd] in *;
        [| discriminate].
      injection Hl as ->.
      assert (Ha : Ready a).
      { exists candidate, w, w1. split; [exact Hinit | reflexivity]. }
      match goal with
      | |- context [if ?b then l else a :: l] => destruct b
      end.
      * exists l. cbn [fst snd]. repeat split; auto.
        -- rewrite Hr. subst w2 w1. cbn [reads]. lia.
        -- now constructor.
      * exists (a :: l). cbn [fst snd]. repeat split; auto.
        -- rewrite Hr. subst w2 w1. cbn [reads]. lia.
        -- cbn [map]. change (TapArchive.archive_object a) with candidate.
           now constructor.
Qed.

Lemma get_non_ivoa_archives_loop_app (first : list nat) :
  forall (second : list nat) (archive_list : list ArchiveObject.t)
         (acc : list TapArchive.t) (w : World),
    get_non_ivoa_archives_loop (first ++ second)%list archive_list acc w
    = match get_non_ivoa_archives_loop first archive_list acc w with
      | (Ok acc', w') => get_non_ivoa_archives_loop second archive_list acc' w'
      | (Raised e, w') => (Raised e, w')
      end.
Proof.
  induction first as [| i rest IH]; intros second archive_list acc w.
  - reflexivity.
  - cbn [app]. rewrite !get_non_ivoa_archives_loop_step.
    destruct (nth_error archive_list i) as [archive_record |]; [| reflexivity].
    destruct (TapArchive.__init__ archive_record w) as [[archive | e] w1];
      [| reflexivity].
    destruct (TapArchive.initialized archive); [| apply IH].
    destruct (TapArchive.is_ivoa archive w1) as [[is_ivoa | e] w2];
      [apply IH | reflexivity].
Qed.

(** On fewer than ten records the loop runs out of records. *)
Lemma get_non_ivoa_archives_short (archive_list : list ArchiveObject.t) (w : World) :
  length archive_list < 10 ->
  get_non_ivoa_archives archive_list w
  = (Raised IndexError, snd (curate archive_list w)).
Proof.
  intros Hlen. unfold get_non_ivoa_archives.
  assert (E : seq 0 10
              = (seq 0 (length archive_list)
                 ++ length archive_list :: seq (S (length archive_list))
                                               (9 - length archive_list))%list).
  { replace 10 with (length archive_list + S (9 - length archive_list)) at 1 by lia.
    now rewrite seq_app. }
  rewrite E, get_non_ivoa_archives_loop_app.
  assert (H := get_non_ivoa_archives_loop_curate archive_list [] [] [] w).
  cbn [length app] in H. rewrite app_nil_r in H. rewrite H.
  destruct (curate_outcome archive_list w) as [l [Hl _]]. rewrite Hl.
  rewrite get_non_ivoa_archives_loop_step.
  assert (Hnone : nth_error archive_list (length archive_list) = None)
    by (apply nth_error_None; lia).
  now rewrite Hnone.
Qed.

Lemma get_non_ivoa_archives_long (archive_list : list ArchiveObject.t) (w : World) :
  10 <= length archive_list ->
  get_non_ivoa_archives archive_list w = curate (firstn 10 archive_list) w.
Proof.
  intros Hlen.
  assert (H := get_non_ivoa_archives_loop_curate
                 (firstn 10 archive_list) [] (skipn 10 archive_list) [] w).
  rewrite firstn_skipn, length_firstn, Nat.min_l in H by exact Hlen.
  unfold get_non_ivoa_archives. cbn [length app] in H. rewrite H.
  destruct (curate (firstn 10 archive_list) w) as [[curated | e] w']; reflexivity.
Qed.

(** No failure of a service makes [get_non_ivoa_archives] raise: it raises
    exactly when the registry answers with fewer than ten records, and the
    exception is then [IndexError]. *)
Theorem curation_raises_only_on_short_list :
  forall (archive_list : list ArchiveObject.t) (w : World),
    match fst (get_non_ivoa_archives archive_list w) with
    | Ok _ => 10 <= length archive_list
    | Raised e => e = IndexError /\ length archive_list < 10
    end.
Proof.
  intros archive_list w.
  destruct (Nat.lt_ge_cases (length archive_list) 10) as [Hlt | Hge].
  - rewrite (get_non_ivoa_archives_short archive_list w Hlt). cbn. auto.
  - rewrite (get_non_ivoa_archives_long archive_list w Hge).
    destruct (curate_outcome (firstn 10 archive_list) w) as [l [Hl _]].
    now rewrite Hl.
Qed.

(** Every archive that [get_non_ivoa_archives] returns is Ready, and the
    records of the returned archives are records among the first ten of
    the registry's answer, in the order of that answer. *)
Theorem curated_archives_are_ready_in_order :
  forall (archive_list : list ArchiveObject.t) (w : World)
         (l : list TapArchive.t) (w' : World),
    get_non_ivoa_archives archive_list w = (Ok l, w') ->
    Forall Ready l
    /\ subsequence (map TapArchive.archive_object l) (firstn 10 archive_list).
Proof.
  intros archive_list w l w' H.
  destruct (Nat.lt_ge_cases (length archive_list) 10) as [Hlt | Hge].
  - rewrite (get_non_ivoa_archives_short archive_list w Hlt) in H. discriminate.
  - rewrite (get_non_ivoa_archives_long archive_list w Hge) in H.
    destruct (curate_outcome (firstn 10 archive_list) w)
      as [l' [Hl [_ [_ [Hready Hsub]]]]].
    rewrite H in Hl. cbn in Hl. injection Hl as <-. auto.
Qed.

Lemma curated_archives_are_ready_in_order_witness :
  fst (get_non_ivoa_archives eleven_candidates example_world)
  = Ok (map empty_archive
          ["https://a0/tap"; "https://a1/tap"; "https://a2/tap"; "https://a3/tap";
           "https://a4/tap"; "https://a5/tap"; "https://a6/tap"; "https://a7/tap";
           "https://a8/tap"; "https://a9/tap"])
  /\ Forall Ready
       (map empty_archive
          ["https://a0/tap"; "https://a1/tap"; "https://a2/tap"; "https://a3/tap";
           "https://a4/tap"; "https://a5/tap"; "https://a6/tap"; "https://a7/tap";
           "https://a8/tap"; "https://a9/tap"]).
Proof.
  assert (H : fst (get_non_ivoa_archives eleven_candidates example_world)
              = Ok (map empty_archive
                      ["https://a0/tap"; "https://a1/tap"; "https://a2/tap";
                       "https://a3/tap"; "https://a4/tap"; "https://a5/tap";
                       "https://a6/tap"; "https://a7/tap"; "https://a8/tap";
                       "https://a9/tap"]))
    by (vm_compute; reflexivity).
  split; [exact H |].
  destruct (get_non_ivoa_archives eleven_candidates example_world) as [r w'] eqn:E.
  cbn [fst] in H. subst r.
  exact (proj1 (curated_archives_are_ready_in_order
                  eleven_candidates example_world _ w' E)).
Defined.

(** ** The nested branches and the whole document *)

Lemma append_assoc (s1 s2 s3 : string) : (s1 ++ s2) ++ s3 = s1 ++ s2 ++ s3.
Proof. induction s1 as [| c s1 IH]; cbn; [reflexivity | now rewrite IH]. Qed.

Lemma append_empty_r (s : string) : s ++ "" = s.
Proof. induction s as [| c s IH]; cbn; [reflexivity | now rewrite IH]. Qed.

Lemma fold_left_append {A : Type} (f : A -> string) (l : list A) (acc : string) :
  fold_left (fun acc x => acc ++ f x) l acc = acc ++ join (map f l).
Proof.
  revert acc. induction l as [| x l IH]; intros acc; cbn.
  - now rewrite append_empty_r.
  - rewrite IH. apply append_assoc.
Qed.

Lemma generate_builder_table_selection_block_eq
    (archive_tables : list TapArchive.Table.t) :
  QueryBuildersBlock.generate_builder_table_selection_block archive_tables
  = ToolSelect.mk "table_selection" "Table selection"
      (map (fun table => ToolOption.mk (TapArchive.Table.name table)
                                       (PyStr (TapArchive.Table.name table)))
           archive_tables).
Proof.
  unfold QueryBuildersBlock.generate_builder_table_selection_block.
  now rewrite fold_left_snoc.
Qed.

Lemma generate_builders_loop_branches (archives : list TapArchive.t) :
  forall builders_block : string,
    Forall Ready archives ->
    exists branches,
      QueryBuildersBlock.generate_builders_loop archives builders_block
      = Ok (builders_block ++ join branches, archives)
      /\ Forall2 (fun archive xml =>
                    exists h tl,
                      TapArchive.hash archive = Some h
                      /\ TapArchive.tables archive = Some tl
                      /\ xml = ToolWhenNested.get_xml
                                 (ToolWhenNested.mk h
                                    (ToolSelect.get_xml
                                       (QueryBuildersBlock.generate_builder_table_selection_block tl)
                                     ++ join (map ToolWhen.get_xml
                                                (QueryBuildersBlock.generate_builder_params_block tl)))))
                 archives branches.
Proof.
  induction archives as [| archive rest IH]; intros builders_block Hall.
  - exists []. cbn. rewrite append_empty_r. split; [reflexivity | constructor].
  - inversion Hall as [| ? ? Hready Hrest]; subst.
    destruct (Ready_getters archive Hready)
      as [u [n [_ [_ [_ [[tl Htl] [_ [_ [Hhash [_ Hgh]]]]]]]]]].
    cbn [QueryBuildersBlock.generate_builders_loop]. rewrite Htl, Hgh. cbn [rbind].
    rewrite fold_left_append.
    match goal with
    | |- context [QueryBuildersBlock.generate_builders_loop rest (_ ++ ?x)] =>
        set (xml := x)
    end.
    destruct (IH (builders_block ++ xml) Hrest) as [branches [Hloop Hfor]].
    exists (xml :: branches). rewrite Hloop. cbn [rbind join fold_right].
    rewrite append_assoc. split; [reflexivity |].
    constructor; [| exact Hfor]. exists (MD5.hexdigest n), tl. auto.
Qed.

Lemma generate_block_ready (archives : list TapArchive.t) :
  Forall Ready archives ->
  exists options branches,
    QueryBuildersBlock.generate_block (QueryBuildersBlock.__init__ archives)
    = Ok (QueryBuildersBlock.mk archives
            (Some (ToolSelect.mk "query_type" "ADQL Query Selection"
                     (fixed_options ++ options)%list))
            (join branches))
    /\ Forall2 (fun archive option =>
                  TapArchive.hash archive = Some (ToolOption.value option)
                  /\ TapArchive.name archive = Some (ToolOption.name option))
               archives options
    /\ Forall2 (fun archive xml =>
                  exists h tl,
                    TapArchive.hash archive = Some h
                    /\ TapArchive.tables archive = Some tl
                    /\ xml = ToolWhenNested.get_xml
                               (ToolWhenNested.mk h
                                  (ToolSelect.get_xml
                                     (QueryBuildersBlock.generate_builder_table_selection_block tl)
                                   ++ join (map ToolWhen.get_xml
                                              (QueryBuildersBlock.generate_builder_params_block tl)))))
               archives branches.
Proof.
  intros Hall.
  destruct (generate_builder_selection_loop_ready archives fixed_options Hall)
    as [options [Hsel Hfor]].
  destruct (generate_builders_loop_branches archives "" Hall)
    as [branches [Hb Hbranches]].
  exists options, branches. split; [| split; assumption].
  unfold QueryBuildersBlock.generate_block,
    QueryBuildersBlock.generate_builder_selection_block,
    QueryBuildersBlock.generate_builders_block, QueryBuildersBlock.__init__.
  cbn [QueryBuildersBlock.archive_list QueryBuildersBlock.builder_selection_block
       QueryBuildersBlock.builders_block app].
  change [ToolOption.mk QueryBuildersBlock.GENERIC_QUERY_NAME
            (PyStr QueryBuildersBlock.GENERIC_QUERY_LABEL);
          ToolOption.mk QueryBuildersBlock.IVOA_BUILDER_NAME
            (PyStr QueryBuildersBlock.IVOA_BUILDER_LABEL);
          ToolOption.mk QueryBuildersBlock.RAW_QUERY_NAME
            (PyStr QueryBuildersBlock.RAW_QUERY_LABEL)] with fixed_options.
  rewrite Hsel. cbn [rbind QueryBuildersBlock.archive_list
                     QueryBuildersBlock.builder_selection_block
                     QueryBuildersBlock.builders_block].
  rewrite Hb. reflexivity.
Qed.

(** For every list of Ready archives, [generate_block] leaves the archives
    as they were and a block of nested branches that is, in list order, one
    branch per archive: the branch is keyed by the hash of the archive and
    holds the table selector, with one option per table of the archive in
    table order, followed by the sub-branches of the tables. *)
Theorem builders_block_one_branch_per_archive :
  forall archives : list TapArchive.t,
    Forall Ready archives ->
    exists qbb branches,
      QueryBuildersBlock.generate_block (QueryBuildersBlock.__init__ archives) = Ok qbb
      /\ QueryBuildersBlock.archive_list qbb = archives
      /\ QueryBuildersBlock.builders_block qbb = join branches
      /\ Forall2 (fun archive xml =>
                    exists h tl,
                      TapArchive.hash archive = Some h
                      /\ TapArchive.tables archive = Some tl
                      /\ xml = ToolWhenNested.get_xml
                                 (ToolWhenNested.mk h
                                    (ToolSelect.get_xml
                                       (ToolSelect.mk "table_selection" "Table selection"
                                          (map (fun table =>
                                                  ToolOption.mk
                                                    (TapArchive.Table.name table)
                                                    (PyStr (TapArchive.Table.name table)))
                                               tl))
                                     ++ join (map ToolWhen.get_xml
                                                (QueryBuildersBlock.generate_builder_params_block tl)))))
                 archives branches.
Proof.
  intros archives Hall.
  destruct (generate_block_ready archives Hall)
    as [options [branches [H [_ Hbranches]]]].
  eexists. exists branches. split; [exact H |].
  cbn [QueryBuildersBlock.archive_list QueryBuildersBlock.builders_block].
  split; [reflexivity | split; [reflexivity |]].
  eapply Forall2_impl; [| exact Hbranches].
  intros archive xml [h [tl [Hh [Htl Hxml]]]]. exists h, tl.
  rewrite generate_builder_table_selection_block_eq in Hxml. auto.
Qed.

Lemma builders_block_one_branch_per_archive_witness :
  Forall Ready [x_tap_archive]
  /\ exists qbb branches,
      QueryBuildersBlock.generate_block (QueryBuildersBlock.__init__ [x_tap_archive])
      = Ok qbb
      /\ QueryBuildersBlock.archive_list qbb = [x_tap_archive]
      /\ QueryBuildersBlock.builders_block qbb = join branches
      /\ length branches = 1.
Proof.
  assert (Hready : Forall Ready [x_tap_archive]).
  { constructor; [| constructor].
    exists x_archive, example_world, (mkWorld example_net 1 None).
    split; vm_compute; reflexivity. }
  split; [exact Hready |].
  destruct (builders_block_one_branch_per_archive [x_tap_archive] Hready)
    as [qbb [branches [H [Hl [Hb Hfor]]]]].
  exists qbb, branches. repeat split; auto.
  inversion Hfor as [| ? ? ? ? _ Hrest]; subst. inversion Hrest. reflexivity.
Defined.

(** [test_main], up to the file write, raises exactly when the registry
    answers with fewer than ten records, and then with [IndexError]: no
    failure of a service makes it raise.  When it returns, the document is
    the rendering of the root selector, whose options are the three fixed
    options followed by one option per curated archive (value the hash,
    label the name), followed by the nested branches, one per curated
    archive in the same order, each keyed by the hash of its archive and
    holding the table selector and the sub-branches of the tables. *)
Theorem test_main_raises_only_on_short_list :
  forall (archives : list ArchiveObject.t) (w : World),
    match fst (test_main archives w) with
    | Ok xml =>
        10 <= length archives
        /\ exists curated options branches,
            fst (get_non_ivoa_archives archives w) = Ok curated
            /\ xml = ToolSelect.get_xml
                       (ToolSelect.mk "query_type" "ADQL Query Selection"
                          (fixed_options ++ options)%list)
                     ++ join branches
            /\ Forall2 (fun archive option =>
                          TapArchive.hash archive = Some (ToolOption.value option)
                          /\ TapArchive.name archive = Some (ToolOption.name option))
                       curated options
            /\ Forall2 (fun archive branch =>
                          exists h tl,
                            TapArchive.hash archive = Some h
                            /\ TapArchive.tables archive = Some tl
                            /\ branch
                               = ToolWhenNested.get_xml
                                   (ToolWhenNested.mk h
                                      (ToolSelect.get_xml
                                         (QueryBuildersBlock.generate_builder_table_selection_block tl)
                                       ++ join (map ToolWhen.get_xml
                                                  (QueryBuildersBlock.generate_builder_params_block tl)))))
                       curated branches
    | Raised e => e = IndexError /\ length archives < 10
    end.
Proof.
  intros archives w. unfold test_main. unfold bind at 1.
  destruct (Nat.lt_ge_cases (length archives) 10) as [Hlt | Hge].
  - rewrite (get_non_ivoa_archives_short archives w Hlt). cbn. auto.
  - rewrite (get_non_ivoa_archives_long archives w Hge).
    destruct (curate_outcome (firstn 10 archives) w) as [l [Hl [_ [_ [Hready _]]]]].
    destruct (curate (firstn 10 archives) w) as [r w']. cbn [fst] in Hl. subst r.
    destruct (generate_block_ready l Hready)
      as [options [branches [H [Hoptions Hbranches]]]].
    unfold bind, lift. rewrite H. cbn.
    split; [exact Hge |]. exists l, options, branches. auto.
Qed.

(** [create_query_builders_xml_block] never renders the block it builds:
    it returns the empty text when the registry answers with at least ten
    records, and raises [IndexError] otherwise. *)
Theorem create_query_builders_xml_block_is_empty :
  forall (archive_list : list ArchiveObject.t) (w : World),
    fst (create_query_builders_xml_block archive_list w)
    = if (10 <=? length archive_list)%nat then Ok "" else Raised IndexError.
Proof.
  intros archive_list w. unfold create_query_builders_xml_block, bind.
  destruct (Nat.leb_spec 10 (length archive_list)) as [Hge | Hlt].
  - rewrite (get_non_ivoa_archives_long archive_list w Hge).
    destruct (curate_outcome (firstn 10 archive_list) w) as [l [Hl _]].
    destruct (curate (firstn 10 archive_list) w) as [r w']. cbn [fst] in Hl.
    now subst r.
  - now rewrite (get_non_ivoa_archives_short archive_list w Hlt).
Qed.

(** ** The identifier of an archive *)

Lemma le_bytes_range (n : nat) (x : Z) :
  Forall (fun b => (0 <= b < 256)%Z) (MD5.le_bytes n x).
Proof.
  unfold MD5.le_bytes. apply Forall_forall. intros b Hb.
  apply in_map_iff in Hb. destruct Hb as [k [<- _]].
  apply Z.mod_pos_bound. lia.
Qed.

Lemma digest_bytes (msg : list Z) :
  length (MD5.digest msg) = 16
  /\ Forall (fun b => (0 <= b < 256)%Z) (MD5.digest msg).
Proof.
  unfold MD5.digest. cbv zeta.
  destruct (fold_left MD5.block _ MD5.init) as [[[a b] c] d]. split.
  - rewrite !length_app. unfold MD5.le_bytes. now rewrite !length_map, !length_seq.
  - repeat (apply Forall_app; split); apply le_bytes_range.
Qed.

Lemma hex_digit_hex_char (x : Z) :
  (0 <= x < 16)%Z -> hex_char (MD5.hex_digit x).
Proof.
  intros Hx.
  assert (H : (x = 0 \/ x = 1 \/ x = 2 \/ x = 3 \/ x = 4 \/ x = 5 \/ x = 6 \/ x = 7
               \/ x = 8 \/ x = 9 \/ x = 10 \/ x = 11 \/ x = 12 \/ x = 13
               \/ x = 14 \/ x = 15)%Z) by lia.
  unfold hex_char.
  repeat (destruct H as [-> | H];
          [vm_compute; repeat (first [left; reflexivity | right]) |]).
  subst x. vm_compute. repeat (first [left; reflexivity | right]).
Qed.

Lemma hex_of_bytes (bytes : list Z) :
  Forall (fun b => (0 <= b < 256)%Z) bytes ->
  String.length (MD5.hex bytes) = 2 * length bytes
  /\ Forall hex_char (list_ascii_of_string (MD5.hex bytes)).
Proof.
  induction 1 as [| b bytes Hb Hall [IHlen IHhex]].
  - cbn. split; [reflexivity | constructor].
  - cbn [MD5.hex fold_right String.length list_ascii_of_string length].
    fold (MD5.hex bytes). split; [rewrite IHlen; lia |].
    constructor; [| constructor; [| exact IHhex]]; apply hex_digit_hex_char.
    + split; [apply Z.div_pos; lia | apply Z.div_lt_upper_bound; lia].
    + apply Z.mod_pos_bound. lia.
Qed.

(** The hash of a Ready archive is a text of 32 lowercase hexadecimal
    digits. *)
Theorem ready_hash_is_32_hex_digits :
  forall a : TapArchive.t,
    Ready a ->
    exists h,
      TapArchive.get_hash a = Ok (h, a)
      /\ String.length h = 32
      /\ Forall hex_char (list_ascii_of_string h).
Proof.
  intros a Hready.
  destruct (Ready_getters a Hready) as [u [n [_ [_ [_ [_ [_ [_ [_ [_ Hgh]]]]]]]]]].
  exists (MD5.hexdigest n). split; [exact Hgh |].
  unfold MD5.hexdigest.
  destruct (digest_bytes (MD5.encode n)) as [Hlen Hrange].
  destruct (hex_of_bytes _ Hrange) as [Hl Hhex].
  rewrite Hl, Hlen. split; [reflexivity | exact Hhex].
Qed.

Lemma ready_hash_is_32_hex_digits_witness :
  Ready x_tap_archive
  /\ exists h,
      TapArchive.get_hash x_tap_archive = Ok (h, x_tap_archive)
      /\ String.length h = 32
      /\ Forall hex_char (list_ascii_of_string h).
Proof.
  assert (Hready : Ready x_tap_archive).
  { exists x_archive, example_world, (mkWorld example_net 1 None).
    split; vm_compute; reflexivity. }
  split; [exact Hready | exact (ready_hash_is_32_hex_digits x_tap_archive Hready)].
Defined.

Lemma _get_archive_name_resolved (o : ArchiveObject.t) (url : pystr) :
  ArchiveObject.access_url o = Ok url ->
  _get_archive_name o
  = match resolvedName (ArchiveObject.res_title o) (ArchiveObject.short_name o) url with
    | PyStr s => Ok (MD5.hexdigest s, PyStr s)
    | PyNone => Raised AttributeError
    end.
Proof.
  intros Hurl. unfold _get_archive_name, resolvedName. rewrite Hurl.
  destruct (ArchiveObject.res_title o) as [| t];
    destruct (ArchiveObject.short_name o) as [| s];
    cbn [not_empty is_empty];
    try destruct (t =? ""); try destruct (s =? "");
    cbn [negb rbind]; try reflexivity; destruct url; reflexivity.
Qed.

(** For the record of a Ready archive, the module-level [_get_archive_name]
    returns the pair of the hash and the name that [get_hash] and
    [get_name] return on the archive. *)
Theorem get_archive_name_agrees_with_archive :
  forall (o : ArchiveObject.t) (w : World) (a : TapArchive.t) (w' : World),
    TapArchive.__init__ o w = (Ok a, w') ->
    TapArchive.initialized a = true ->
    exists h n,
      _get_archive_name o = Ok (h, n)
      /\ TapArchive.get_hash a = Ok (h, a)
      /\ TapArchive.get_name a = Ok (n, a).
Proof.
  intros o w a w' H Hi.
  destruct (url_absent_or_present o) as [Habs | [u [Hurl Hu]]].
  - rewrite (init_absent o w Habs) in H. injection H as <- _. discriminate Hi.
  - destruct (init_present o u w Hurl Hu) as [n [Hn [Hne H']]].
    rewrite H' in H. injection H as <- _.
    exists (MD5.hexdigest n), (PyStr n).
    rewrite (_get_archive_name_resolved o (PyStr u) Hurl), Hn.
    destruct (getters_of_named o true (Some (TAPService.mk u))
                (Some (fst (fst (TapArchive._set_tables_loop (net w u (reads w)) []
                                   (mkWorld (net w) (S (reads w)) (Some 5))))))
                (Some (PyStr u)) n Hne) as [Hname Hhash].
    auto.
Qed.

Lemma get_archive_name_agrees_with_archive_witness :
  TapArchive.__init__ x_archive example_world
  = (Ok x_tap_archive, mkWorld example_net 1 None)
  /\ TapArchive.initialized x_tap_archive = true
  /\ _get_archive_name x_archive
     = Ok ("2bd70c567410bd15aba2eeb2b8edf5ac", PyStr "X Archive")
  /\ exists h n,
      _get_archive_name x_archive = Ok (h, n)
      /\ TapArchive.get_hash x_tap_archive = Ok (h, x_tap_archive)
      /\ TapArchive.get_name x_tap_archive = Ok (n, x_tap_archive).
Proof.
  assert (H : TapArchive.__init__ x_archive example_world
              = (Ok x_tap_archive, mkWorld example_net 1 None))
    by (vm_compute; reflexivity).
  split; [exact H | split; [reflexivity | split; [vm_compute; reflexivity |]]].
  exact (get_archive_name_agrees_with_archive x_archive example_world
           x_tap_archive _ H eq_refl).
Defined.

(** An archive built on [create_archive_object_non_ivoa] for a non-empty
    access URL is initialized whatever the service does, and is named by
    the URL: its name is the URL and its hash is the MD5 of the URL. *)
Theorem non_ivoa_wrapper_is_named_by_url :
  forall (url : string) (w : World),
    url <> "" ->
    exists a w',
      TapArchive.__init__ (create_archive_object_non_ivoa (PyStr url)) w = (Ok a, w')
      /\ TapArchive.initialized a = true
      /\ TapArchive.get_name a = Ok (PyStr url, a)
      /\ TapArchive.get_hash a = Ok (MD5.hexdigest url, a).
Proof.
  intros url w Hu.
  destruct (init_present (create_archive_object_non_ivoa (PyStr url)) url w
              eq_refl Hu) as [n [Hn [Hne H]]].
  cbn in Hn. injection Hn as <-.
  do 2 eexists. split; [exact H |]. split; [reflexivity |].
  apply getters_of_named. exact Hu.
Qed.

Lemma non_ivoa_wrapper_is_named_by_url_witness :
  "https://datalab.noirlab.edu/tap" <> ""
  /\ exists a w',
      TapArchive.__init__
        (create_archive_object_non_ivoa (PyStr "https://datalab.noirlab.edu/tap"))
        example_world = (Ok a, w')
      /\ TapArchive.initialized a = true
      /\ TapArchive.get_name a = Ok (PyStr "https://datalab.noirlab.edu/tap", a)
      /\ TapArchive.get_hash a
         = Ok (MD5.hexdigest "https://datalab.noirlab.edu/tap", a).
Proof.
  split; [discriminate |].
  exact (non_ivoa_wrapper_is_named_by_url "https://datalab.noirlab.edu/tap"
           example_world ltac:(discriminate)).
Defined.

(** ** The module-level collection of tables *)

Lemma _set_archive_tables_fields_eq (columns : list RemoteColumn.t) :
  forall fields : list TapArchive.Field.t,
    _set_archive_tables_fields columns fields
    = TapArchive._set_tables_fields columns fields.
Proof.
  induction columns as [| column rest IH]; intros fields; cbn; [reflexivity |].
  destruct (RemoteColumn.datatype column); [apply IH | reflexivity].
Qed.

(** The two loops meet the same exception at the same place: the loop of
    [_set_archive_tables] raises it, the loop of [TapArchive._set_tables]
    hands it to its [except] clause. *)
Lemma _set_archive_tables_loop_agrees (steps : CatalogRead) :
  forall (tables : list TapArchive.Table.t) (w : World),
    _set_archive_tables_loop steps tables w
    = match TapArchive._set_tables_loop steps tables w with
      | ((collected, None), w') => (Ok collected, w')
      | ((_, Some e), w') => (Raised e, w')
      end.
Proof.
  induction steps as [| st rest IH]; intros tables w; [reflexivity |].
  cbn [_set_archive_tables_loop TapArchive._set_tables_loop]. unfold bind at 1.
  destruct (next_item st w) as [[table | e] w1]; [| reflexivity].
  unfold bind, lift. rewrite _set_archive_tables_fields_eq.
  destruct (TapArchive._set_tables_fields (RemoteTable.columns table) [])
    as [fields | e]; [apply IH | reflexivity].
Qed.

Lemma _set_tables_loop_stop_value (st : ReadStep) (rest : CatalogRead)
    (tables : list TapArchive.Table.t) (fetch : string -> nat -> CatalogRead)
    (k remaining : nat) :
  stops remaining st ->
  exists w',
    TapArchive._set_tables_loop (st :: rest) tables
                                (mkWorld fetch k (Some remaining))
    = ((tables, Some (stop_exception remaining st)), w')
    /\ net w' = fetch /\ reads w' = k.
Proof.
  intros H. cbn [TapArchive._set_tables_loop].
  destruct st as [d table | d e]; unfold next_item, bind, tick, ret, raise,
    stop_exception; cbn [alarm net reads]; destruct (remaining <=? d)%nat eqn:Hlt;
    try (eexists; split; [reflexivity | split; reflexivity]).
  destruct H as [H | H]; [apply Nat.leb_gt in Hlt; lia |].
  unfold well_typed in H. rewrite (_set_tables_fields_untyped _ [] H).
  eexists; split; [reflexivity | split; reflexivity].
Qed.

(** On a read that stops before its end (a step is not over before the
    alarm of five seconds strikes, or fails, or delivers a column without
    datatype) the module-level [_set_archive_tables] raises: the exception
    of the interruption when the alarm struck, otherwise the failure of
    the step.  On the same service in the same world
    [TapArchive._set_tables] returns, keeping the tables delivered before
    the stop.  Both leave no alarm pending. *)
Theorem set_archive_tables_raises_where_set_tables_returns :
  forall (s : TAPService.t) (self : TapArchive.t) (w : World)
         (pre : CatalogRead) (st : ReadStep) (rest : CatalogRead),
    TapArchive.service self = Some s ->
    net w (TAPService.baseurl s) (reads w) = (pre ++ st :: rest)%list ->
    faultless pre = true ->
    forallb well_typed (yielded pre) = true ->
    total_delay pre < 5 ->
    stops (5 - total_delay pre) st ->
    _set_archive_tables s w
    = (Raised (stop_exception (5 - total_delay pre) st),
       mkWorld (net w) (S (reads w)) None)
    /\ TapArchive._set_tables self w
       = (Ok (TapArchive.set_tables self (map normalize (yielded pre))),
          mkWorld (net w) (S (reads w)) None).
Proof.
  intros s self w pre st rest Hs Hread Hf Ht Hd Hstop.
  destruct (_set_tables_loop_stop_value st rest (map normalize (yielded pre))
              (net w) (S (reads w)) (5 - total_delay pre) Hstop)
    as [w' [Hloop [Hn Hr]]].
  split.
  - unfold _set_archive_tables, timeout, signal_alarm. unfold bind at 1.
    unfold TAPService.tables. cbn [net reads alarm]. rewrite Hread.
    unfold bind at 1. rewrite _set_archive_tables_loop_agrees.
    rewrite (_set_tables_loop_prefix _ _ [] _ _ 5 Hf Ht Hd). cbn [app].
    rewrite Hloop. now rewrite Hn, Hr.
  - rewrite (_set_tables_returns self s w Hs), Hread.
    rewrite (_set_tables_loop_prefix _ _ [] _ _ 5 Hf Ht Hd). cbn [app].
    now rewrite Hloop.
Qed.

Lemma set_archive_tables_raises_where_set_tables_returns_witness :
  example_net "https://slow/tap" 0 = ([Yield 2 photometry] ++ Yield 4 obscore :: [])%list
  /\ stops (5 - total_delay [Yield 2 photometry]) (Yield 4 obscore)
  /\ _set_archive_tables (TAPService.mk "https://slow/tap") example_world
     = (Raised Interrupted, mkWorld example_net 1 None)
  /\ TapArchive._set_tables
       (TapArchive.mk (descriptor "https://slow/tap") false
          (Some (TAPService.mk "https://slow/tap")) None
          (Some (PyStr "https://slow/tap")) None None)
       example_world
     = (Ok (TapArchive.mk (descriptor "https://slow/tap") false
              (Some (TAPService.mk "https://slow/tap")) (Some [photometry_table])
              (Some (PyStr "https://slow/tap")) None None),
        mkWorld example_net 1 None).
Proof.
  assert (Hstop : stops (5 - total_delay [Yield 2 photometry]) (Yield 4 obscore))
    by (left; cbn; lia).
  split; [reflexivity | split; [exact Hstop |]].
  exact (set_archive_tables_raises_where_set_tables_returns
           (TAPService.mk "https://slow/tap")
           (TapArchive.mk (descriptor "https://slow/tap") false
              (Some (TAPService.mk "https://slow/tap")) None
              (Some (PyStr "https://slow/tap")) None None)
           example_world [Yield 2 photometry] (Yield 4 obscore) []
           eq_refl eq_refl eq_refl eq_refl ltac:(cbn; lia) Hstop).
Defined.

(** On a read that is over before the alarm of five seconds strikes (it
    takes less than five seconds), without a failure and with a datatype
    for every column, [_set_archive_tables] returns [None] after one access
    to the tables of the service, and leaves no alarm pending. *)
Theorem set_archive_tables_returns_on_complete_read :
  forall (s : TAPService.t) (w : World),
    faultless (net w (TAPService.baseurl s) (reads w)) = true ->
    forallb well_typed (yielded (net w (TAPService.baseurl s) (reads w))) = true ->
    total_delay (net w (TAPService.baseurl s) (reads w)) < 5 ->
    _set_archive_tables s w = (Ok tt, mkWorld (net w) (S (reads w)) None).
Proof.
  intros s w Hf Ht Hd.
  unfold _set_archive_tables, timeout, signal_alarm. unfold bind at 1.
  unfold TAPService.tables. cbn [net reads alarm].
  unfold bind at 1. rewrite _set_archive_tables_loop_agrees.
  rewrite <- (app_nil_r (net w (TAPService.baseurl s) (reads w))) at 1.
  rewrite (_set_tables_loop_prefix _ [] [] _ _ 5 Hf Ht Hd). reflexivity.
Qed.

Lemma set_archive_tables_returns_on_complete_read_witness :
  faultless (example_net "https://ok/tap" 0) = true
  /\ forallb well_typed (yielded (example_net "https://ok/tap" 0)) = true
  /\ total_delay (example_net "https://ok/tap" 0) < 5
  /\ _set_archive_tables (TAPService.mk "https://ok/tap") example_world
     = (Ok tt, mkWorld example_net 1 None).
Proof.
  split; [reflexivity | split; [reflexivity | split; [cbn; lia |]]].
  exact (set_archive_tables_returns_on_complete_read
           (TAPService.mk "https://ok/tap") example_world
           eq_refl eq_refl ltac:(cbn; lia)).
Defined.

(** ** The compliance check stops at the reference table *)

Lemma yielded_app (pre suffix : CatalogRead) :
  faultless pre = true ->
  yielded (pre ++ suffix)%list = (yielded pre ++ yielded suffix)%list.
Proof.
  induction pre as [| st pre IH]; [reflexivity |].
  destruct st as [d table | d e]; cbn; [| discriminate].
  intros H. now rewrite IH.
Qed.

(** With no alarm pending, the check returns true as soon as its read
    delivers a table named as the reference table, case-insensitively:
    whatever the read would do after that table, a failure included, is
    not looked at. *)
Theorem compliance_found_before_failure :
  forall (a : TapArchive.t) (u : string) (w : World)
         (pre : CatalogRead) (d : nat) (table : RemoteTable.t) (rest : CatalogRead),
    TapArchive.service a = Some (TAPService.mk u) ->
    alarm w = None ->
    net w u (reads w) = (pre ++ Yield d table :: rest)%list ->
    faultless pre = true ->
    lower (RemoteTable.name table) = TapArchive.OBSCORE_TABLE ->
    TapArchive.is_ivoa a w = (Ok true, mkWorld (net w) (S (reads w)) None).
Proof.
  intros a u w pre d table rest Hs Ha Hread Hf Href.
  rewrite (is_ivoa_no_alarm a u w Hs Ha), Hread, (yielded_app _ _ Hf).
  rewrite existsb_app. cbn [yielded existsb]. unfold is_reference at 2.
  rewrite Href, String.eqb_refl. cbn [orb]. now rewrite orb_true_r.
Qed.

Lemma compliance_found_before_failure_witness :
  TapArchive.service (archive_of "https://late/tap" []) = Some (TAPService.mk "https://late/tap")
  /\ alarm (mkWorld (fun _ _ => [Yield 9 photometry; Yield 9 obscore;
                                 Fault 1 ConnectionError]) 0 None) = None
  /\ lower (RemoteTable.name obscore) = TapArchive.OBSCORE_TABLE
  /\ TapArchive.is_ivoa (archive_of "https://late/tap" [])
       (mkWorld (fun _ _ => [Yield 9 photometry; Yield 9 obscore;
                             Fault 1 ConnectionError]) 0 None)
     = (Ok true,
        mkWorld (fun _ _ => [Yield 9 photometry; Yield 9 obscore;
                             Fault 1 ConnectionError]) 1 None).
Proof.
  split; [reflexivity | split; [reflexivity | split; [reflexivity |]]].
  exact (compliance_found_before_failure
           (archive_of "https://late/tap" []) "https://late/tap"
           (mkWorld (fun _ _ => [Yield 9 photometry; Yield 9 obscore;
                                 Fault 1 ConnectionError]) 0 None)
           [Yield 9 photometry] 9 obscore [Fault 1 ConnectionError]
           eq_refl eq_refl eq_refl eq_refl eq_refl).
Defined.

(** ** When an archive is initialized *)

(** The constructor never raises, and the archive it returns is
    initialized exactly when the access URL of the descriptor is a
    non-empty text, whatever the service does. *)
Theorem constructor_initialized_iff_url_present :
  forall (o : ArchiveObject.t) (w : World),
    exists a,
      fst (TapArchive.__init__ o w) = Ok a
      /\ TapArchive.archive_object a = o
      /\ TapArchive.initialized a = present o.
Proof.
  intros o w.
  destruct (url_absent_or_present o) as [Habs | [u [Hurl Hu]]].
  - rewrite (init_absent o w Habs), (present_false_absent o Habs).
    eexists. cbn. auto.
  - destruct (init_present o u w Hurl Hu) as [n [_ [_ H]]].
    rewrite H, (present_true o u Hurl Hu). eexists. cbn. auto.
Qed.

(** ** The second access to the tables of a service *)

Lemma delivered_complete (steps : CatalogRead) :
  forall remaining : nat,
    complete remaining steps = true -> delivered remaining steps = yielded steps.
Proof.
  unfold complete. induction steps as [| st rest IH]; intros remaining H;
    [reflexivity |].
  apply andb_prop in H. destruct H as [Hf Hd]. apply Nat.ltb_lt in Hd.
  destruct st as [d table | d e]; [| discriminate].
  cbn [faultless forallb andb total_delay fold_right] in Hf, Hd.
  fold (total_delay rest) in Hd. cbn [delivered yielded].
  assert (Hle : (remaining <=? d)%nat = false) by (apply Nat.leb_gt; lia).
  rewrite Hle. f_equal. apply IH. apply andb_true_intro. split; [exact Hf |].
  apply Nat.ltb_lt. lia.
Qed.

Lemma replay_faultless (tables : list RemoteTable.t) :
  faultless (replay tables) = true /\ yielded (replay tables) = tables.
Proof.
  induction tables as [| table rest [IHf IHy]]; [split; reflexivity |].
  cbn. split; [exact IHf | f_equal; exact IHy].
Qed.


(** The tables collected are, normalized, tables that the pass delivered. *)
Lemma _set_tables_loop_collects (steps : CatalogRead) :
  forall (tables : list TapArchive.Table.t) (fetch : string -> nat -> CatalogRead)
         (k remaining : nat),
    exists ts more,
      fst (fst (TapArchive._set_tables_loop steps tables
                  (mkWorld fetch k (Some remaining))))
      = (tables ++ map normalize ts)%list
      /\ delivered remaining steps = (ts ++ more)%list.
Proof.
  induction steps as [| st rest IH]; intros tables fetch k remaining.
  - exists [], []. cbn. now rewrite app_nil_r.
  - cbn [TapArchive._set_tables_loop delivered].
    destruct st as [d table | d e]; unfold next_item, bind, tick, ret, raise;
      cbn [alarm net reads]; destruct (remaining <=? d)%nat eqn:Hle;
      try (exists [], []; cbn; now rewrite app_nil_r).
    destruct (forallb (fun column => match RemoteColumn.datatype column with
                                     | Some _ => true
                                     | None => false
                                     end) (RemoteTable.columns table)) eqn:Ht.
    + rewrite (_set_tables_fields_typed _ [] Ht). cbn [app].
      destruct (IH (tables ++ [TapArchive.Table.mk (RemoteTable.name table)
                                 (RemoteTable.type table)
                                 (map normalize_column (RemoteTable.columns table))])%list
                   fetch k (remaining - d)) as [ts [more [Hc Hd]]].
      exists (table :: ts), more. rewrite Hc, Hd. split; [| reflexivity].
      rewrite <- app_assoc. reflexivity.
    + rewrite (_set_tables_fields_untyped _ [] Ht).
      exists [], (table :: delivered (remaining - d) rest). cbn.
      now rewrite app_nil_r.
Qed.

Lemma curate_app (first : list ArchiveObject.t) :
  forall (second : list ArchiveObject.t) (w : World),
    curate (first ++ second)%list w
    = match curate first w with
      | (Ok l1, w1) =>
          match curate second w1 with
          | (Ok l2, w2) => (Ok (l1 ++ l2)%list, w2)
          | (Raised e, w2) => (Raised e, w2)
          end
      | (Raised e, w1) => (Raised e, w1)
      end.
Proof.
  induction first as [| candidate rest IH]; intros second w.
  - cbn [app]. change (curate [] w) with (@Ok (list TapArchive.t) [], w).
    cbv beta iota. destruct (curate second w) as [[l2 | e] w2]; reflexivity.
  - cbn [app]. rewrite !curate_step.
    destruct (TapArchive.__init__ candidate w) as [[archive | e] w1];
      [| reflexivity].
    destruct (TapArchive.initialized archive); [| apply IH].
    destruct (TapArchive.is_ivoa archive w1) as [[compliant | e] w2];
      [| reflexivity].
    rewrite IH.
    destruct (curate rest w2) as [[l1 | e] w3]; [| reflexivity].
    destruct (curate second w3) as [[l2 | e] w4]; [| reflexivity].
    destruct compliant; reflexivity.
Qed.

Lemma yielded_second_access_eq (first fresh : CatalogRead) :
  yielded (second_access first fresh)
  = (delivered 5 first
     ++ (if complete 5 first then []
         else yielded (skipn (length (delivered 5 first)) fresh)))%list.
Proof.
  unfold second_access.
  destruct (replay_faultless (delivered 5 first)) as [Hf Hy].
  destruct (complete 5 first).
  - now rewrite Hy, app_nil_r.
  - now rewrite (yielded_app _ _ Hf), Hy.
Qed.

(** The constructor on a record with an access URL, and the check that
    follows it: the table list is, normalized, a prefix of what the first
    access delivered, and the check looks for the reference table in what
    the second access delivers before its first failure. *)
Lemma constructor_then_check (o : ArchiveObject.t) (u : string) (w : World) :
  ArchiveObject.access_url o = Ok (PyStr u) ->
  u <> "" ->
  exists a ts more,
    TapArchive.__init__ o w = (Ok a, mkWorld (net w) (S (reads w)) None)
    /\ TapArchive.tables a = Some (map normalize ts)
    /\ delivered 5 (net w u (reads w)) = (ts ++ more)%list
    /\ TapArchive.is_ivoa a (mkWorld (net w) (S (reads w)) None)
       = (Ok (existsb (fun table => is_reference (RemoteTable.name table))
                      (yielded (net w u (S (reads w))))),
          mkWorld (net w) (S (S (reads w))) None).
Proof.
  intros Hurl Hu.
  destruct (init_present o u w Hurl Hu) as [n [_ [_ H]]].
  destruct (_set_tables_loop_collects (net w u (reads w)) [] (net w) (S (reads w)) 5)
    as [ts [more [Hc Hd]]].
  match type of H with
  | _ = (Ok ?x, _) => set (a := x) in *
  end.
  exists a, ts, more. split; [exact H |].
  split; [subst a; cbn [TapArchive.tables]; now rewrite Hc |].
  split; [exact Hd |].
  exact (is_ivoa_no_alarm a u (mkWorld (net w) (S (reads w)) None) eq_refl eq_refl).
Qed.

Lemma initialized_url_not_empty (o : ArchiveObject.t) (w : World)
    (a : TapArchive.t) (w1 : World) (u : string) :
  TapArchive.__init__ o w = (Ok a, w1) ->
  TapArchive.initialized a = true ->
  ArchiveObject.access_url o = Ok (PyStr u) ->
  u <> "".
Proof.
  intros H Hi Hurl ->.
  rewrite (init_absent o w) in H by (unfold url_absent; now rewrite Hurl).
  injection H as <- _. discriminate Hi.
Qed.




(** ** The check, the cache and the curated list *)

Lemma firstn_split_at {A : Type} (o : A) (l : list A) :
  forall i n : nat,
    nth_error l i = Some o ->
    i < n ->
    firstn n l = (firstn i l ++ o :: firstn (n - S i) (skipn (S i) l))%list.
Proof.
  induction l as [| x l IH]; intros i n Hnth Hlt.
  - destruct i; discriminate.
  - destruct n as [| n]; [lia |]. destruct i as [| i].
    + cbn in Hnth. injection Hnth as ->. cbn. now rewrite Nat.sub_0_r.
    + cbn in Hnth. cbn [firstn app skipn]. f_equal.
      rewrite (IH i n Hnth) by lia. reflexivity.
Qed.

(** An archive that the check finds not compliant is in the list that
    [get_non_ivoa_archives] returns, when its record is one of the first
    ten and the registry answers with ten records at least. *)
Lemma not_compliant_is_curated (archive_list : list ArchiveObject.t)
    (w0 : World) (i : nat) (o : ArchiveObject.t) (a : TapArchive.t)
    (w1 w2 : World) :
  10 <= length archive_list ->
  i < 10 ->
  nth_error archive_list i = Some o ->
  TapArchive.__init__ o (snd (curate (firstn i archive_list) w0)) = (Ok a, w1) ->
  TapArchive.initialized a = true ->
  TapArchive.is_ivoa a w1 = (Ok false, w2) ->
  exists l, fst (get_non_ivoa_archives archive_list w0) = Ok l /\ In a l.
Proof.
  intros Hlen Hi Hnth Hinit Hready Hcheck.
  rewrite (get_non_ivoa_archives_long archive_list w0 Hlen).
  rewrite (firstn_split_at o archive_list i 10 Hnth Hi), curate_app.
  destruct (curate_outcome (firstn i archive_list) w0) as [l1 [Hl1 _]].
  destruct (curate (firstn i archive_list) w0) as [r w]. cbn [fst snd] in *.
  subst r. rewrite curate_step, Hinit, Hready, Hcheck.
  destruct (curate_outcome (firstn (10 - S i) (skipn (S i) archive_list)) w2)
    as [l2 [Hl2 _]].
  destruct (curate (firstn (10 - S i) (skipn (S i) archive_list)) w2) as [r w3].
  cbn [fst] in Hl2. subst r. cbn [fst].
  exists (l1 ++ a :: l2)%list. split; [reflexivity |].
  apply in_or_app. right. now left.
Qed.

(** C10, as amended.  For a Ready archive, checked as the constructor
    leaves it, the check does not read the archive's table list: it goes
    over the tables of the service again, and pyvo serves that second
    access from what it kept at the first.  The check returns true exactly
    when a table named as the reference table is among the tables kept
    from the first access or, only if the first pass was not complete,
    among those that a fetch made anew delivers after them before its
    first failure.  Whenever the pass of the check raises before it is
    delivered such a table, the check returns false; and whenever the check
    returns false, the archive is in the list that [get_non_ivoa_archives]
    returns. *)
Theorem compliance_goes_over_service_tables :
  forall (o : ArchiveObject.t) (w : World) (a : TapArchive.t) (w1 : World)
         (u : string) (fresh : CatalogRead),
    TapArchive.__init__ o w = (Ok a, w1) ->
    TapArchive.initialized a = true ->
    ArchiveObject.access_url o = Ok (PyStr u) ->
    net w u (S (reads w)) = second_access (net w u (reads w)) fresh ->
    exists b,
      TapArchive.is_ivoa a w1 = (Ok b, mkWorld (net w) (S (S (reads w))) None)
      /\ (b = true <->
          exists table,
            In table
               (delivered 5 (net w u (reads w))
                ++ (if complete 5 (net w u (reads w)) then []
                    else yielded (skipn (length (delivered 5 (net w u (reads w))))
                                        fresh)))%list
            /\ lower (RemoteTable.name table) = TapArchive.OBSCORE_TABLE)
      /\ (forall (pre : CatalogRead) (d : nat) (e : Exn) (rest : CatalogRead),
             second_access (net w u (reads w)) fresh = (pre ++ Fault d e :: rest)%list ->
             faultless pre = true ->
             (forall table, In table (yielded pre) ->
                            lower (RemoteTable.name table) <> TapArchive.OBSCORE_TABLE) ->
             b = false)
      /\ (b = false ->
          forall (archive_list : list ArchiveObject.t) (w0 : World) (i : nat),
            10 <= length archive_list ->
            i < 10 ->
            nth_error archive_list i = Some o ->
            snd (curate (firstn i archive_list) w0) = w ->
            exists l, fst (get_non_ivoa_archives archive_list w0) = Ok l /\ In a l).
Proof.
  intros o w a w1 u fresh Hinit Hi Hurl Hcache.
  assert (Hu := initialized_url_not_empty o w a w1 u Hinit Hi Hurl).
  destruct (constructor_then_check o u w Hurl Hu)
    as [a' [ts [more [H [Htl [Hd Hcheck]]]]]].
  assert (Ea : a' = a) by congruence.
  assert (Ew : mkWorld (net w) (S (reads w)) None = w1) by congruence.
  subst a' w1. rewrite Hcache in Hcheck.
  eexists. split; [exact Hcheck |].
  assert (Hiff : forall l : list RemoteTable.t,
             existsb (fun table => is_reference (RemoteTable.name table)) l = true
             <-> exists table, In table l
                               /\ lower (RemoteTable.name table)
                                  = TapArchive.OBSCORE_TABLE).
  { intros l. rewrite existsb_exists. unfold is_reference.
    split; intros [table [Hin Hn]]; exists table; split; auto;
      now apply String.eqb_eq. }
  split; [rewrite yielded_second_access_eq; apply Hiff |].
  split.
  - intros pre d e rest Hpass Hpre Hnone.
    rewrite Hpass, (yielded_app_fault _ _ _ _ Hpre).
    apply not_true_is_false. intros Htrue. apply Hiff in Htrue.
    destruct Htrue as [table [Hin Hname]]. exact (Hnone table Hin Hname).
  - intros Hfalse archive_list w0 i Hlen Hlt Hnth Hw.
    rewrite Hfalse in Hcheck.
    apply (not_compliant_is_curated archive_list w0 i o a
             (mkWorld (net w) (S (reads w)) None)
             (mkWorld (net w) (S (S (reads w))) None) Hlen Hlt Hnth);
      [rewrite Hw; exact Hinit | exact Hi | exact Hcheck].
Qed.

Lemma compliance_goes_over_service_tables_witness :
  TapArchive.__init__ x_archive cached_world
  = (Ok x_tap_archive, mkWorld cached_net 1 None)
  /\ TapArchive.initialized x_tap_archive = true
  /\ cached_net "https://x/tap" 1
     = second_access (cached_net "https://x/tap" 0) (example_net "https://x/tap" 1)
  /\ second_access (cached_net "https://x/tap" 0) (example_net "https://x/tap" 1)
     = ([Yield 0 photometry] ++ Fault 1 ConnectionError :: [Yield 1 obscore])%list
  /\ TapArchive.is_ivoa x_tap_archive (mkWorld cached_net 1 None)
     = (Ok false, mkWorld cached_net 2 None)
  /\ exists l,
      fst (get_non_ivoa_archives (ten_led_by x_archive) cached_world) = Ok l
      /\ In x_tap_archive l.
Proof.
  assert (H : TapArchive.__init__ x_archive cached_world
              = (Ok x_tap_archive, mkWorld cached_net 1 None))
    by (vm_compute; reflexivity).
  assert (Hpass : second_access (cached_net "https://x/tap" 0)
                                (example_net "https://x/tap" 1)
                  = ([Yield 0 photometry] ++ Fault 1 ConnectionError
                                          :: [Yield 1 obscore])%list)
    by reflexivity.
  split; [exact H | split; [reflexivity | split; [reflexivity |]]].
  split; [exact Hpass |].
  destruct (compliance_goes_over_service_tables
              x_archive cached_world x_tap_archive (mkWorld cached_net 1 None)
              "https://x/tap" (example_net "https://x/tap" 1)
              H eq_refl eq_refl eq_refl)
    as [b [Hcheck [_ [Hraise Hkeep]]]].
  assert (Hb : b = false).
  { apply (Hraise [Yield 0 photometry] 1 ConnectionError [Yield 1 obscore] Hpass
                  eq_refl).
    intros table [<- | []]. discriminate. }
  subst b. split; [exact Hcheck |].
  apply (Hkeep eq_refl (ten_led_by x_archive) cached_world 0);
    [cbn; lia | lia | reflexivity | reflexivity].
Defined.

(** C10, as stated, fails on https://core/tap, met through pyvo's cache.
    The constructor's pass is complete and delivers the reference table;
    at the time of the check a fetch made anew would fail at once, so a
    fresh read of the live catalog raises and the claim has the check
    return false and the archive retained.  The check is served the kept
    table without a request: it returns true, and the archive is not in
    the curated list, which holds the nine other archives. *)
Lemma cached_reference_table_hides_failure :
  example_net "https://core/tap" 1 = [Fault 1 ConnectionError]
  /\ cached_net "https://core/tap" 1
     = second_access (cached_net "https://core/tap" 0)
                     (example_net "https://core/tap" 1)
  /\ TapArchive.__init__ (descriptor "https://core/tap") cached_world
     = (Ok (archive_of "https://core/tap" [obscore_table]), mkWorld cached_net 1 None)
  /\ TapArchive.is_ivoa (archive_of "https://core/tap" [obscore_table])
                        (mkWorld cached_net 1 None)
     = (Ok true, mkWorld cached_net 2 None)
  /\ fst (get_non_ivoa_archives (ten_led_by (descriptor "https://core/tap"))
                                cached_world)
     = Ok (map empty_archive
             ["https://a0/tap"; "https://a1/tap"; "https://a2/tap";
              "https://a3/tap"; "https://a4/tap"; "https://a5/tap";
              "https://a6/tap"; "https://a7/tap"; "https://a8/tap"]).
Proof.
  split; [reflexivity | split; [reflexivity |]].
  split; [vm_compute; reflexivity |].
  split; vm_compute; reflexivity.
Qed.
